(** * Personal budget tracker: reminder engine and month aggregation

    A shallow embedding of [App.tsx] (the [BudgetTrackerApp] component),
    [components/ReminderModal.tsx] and [types.ts].

    React state ([reminders], [activeNotifications]) is threaded explicitly;
    browser effects (tones, vibration, OS notifications) are collected in an
    effect trace; the wall clock and the page's visibility are inputs of
    the operations that read them. *)

From Stdlib Require Import ZArith List String Ascii Bool Lia QArith.
From Stdlib Require Import DecimalString DecimalZ DecimalPos.
Import ListNotations.

Local Open Scope string_scope.
Local Open Scope Z_scope.

(* ===================================================================== *)
(** * The host's [Date] object *)
(* ===================================================================== *)

(** Time values are milliseconds since 1970-01-01T00:00Z; an invalid date
    (time value NaN) is [None].  The local time zone is a fixed offset [tz]
    in minutes east of UTC (no daylight-saving transitions). *)

Module JSDate.

Definition msPerSecond : Z := 1000.
Definition msPerMinute : Z := 60000.
Definition msPerHour : Z := 3600000.
Definition msPerDay : Z := 86400000.

(** Day number (days since the epoch) to proleptic Gregorian
    (year, month 1..12, day of month). *)
Definition civil_from_days (z : Z) : Z * Z * Z :=
  let z0 := z + 719468 in
  let era := z0 / 146097 in
  let doe := z0 mod 146097 in
  let yoe := (doe - doe / 1460 + doe / 36524 - doe / 146096) / 365 in
  let y := yoe + era * 400 in
  let doy := doe - (365 * yoe + yoe / 4 - yoe / 100) in
  let mp := (5 * doy + 2) / 153 in
  let d := doy - (153 * mp + 2) / 5 + 1 in
  let m := if mp <? 10 then mp + 3 else mp - 9 in
  (if m <=? 2 then y + 1 else y, m, d).

(** (year, month 1..12, day of month) to day number; a day of month past
    the end of the month rolls over into the next one. *)
Definition days_from_civil (y m d : Z) : Z :=
  let y' := if m <=? 2 then y - 1 else y in
  let era := y' / 400 in
  let yoe := y' mod 400 in
  let doy := (153 * (if 2 <? m then m - 3 else m + 9) + 2) / 5 + d - 1 in
  let doe := yoe * 365 + yoe / 4 - yoe / 100 + doy in
  era * 146097 + doe - 719468.

Definition Day (t : Z) : Z := t / msPerDay.
Definition TimeWithinDay (t : Z) : Z := t mod msPerDay.

Definition LocalTime (tz t : Z) : Z := t + tz * msPerMinute.
Definition UTC (tz t : Z) : Z := t - tz * msPerMinute.

Definition YearFromTime (t : Z) : Z := fst (fst (civil_from_days (Day t))).
(** Month 0..11, as [getMonth] numbers it. *)
Definition MonthFromTime (t : Z) : Z := snd (fst (civil_from_days (Day t))) - 1.
Definition DateFromTime (t : Z) : Z := snd (civil_from_days (Day t)).

(** [d.getFullYear()] and [d.getMonth()]: fields of the local time. *)
Definition getFullYear (tz t : Z) : Z := YearFromTime (LocalTime tz t).
Definition getMonth (tz t : Z) : Z := MonthFromTime (LocalTime tz t).

(** [new Date(year, monthIndex, day, hours, minutes)]: local fields. *)
Definition MakeTime (h mi s ms : Z) : Z :=
  h * msPerHour + mi * msPerMinute + s * msPerSecond + ms.
Definition MakeDate (day time : Z) : Z := day * msPerDay + time.
Definition ofLocalFields (tz y monthIndex d h mi : Z) : Z :=
  UTC tz (MakeDate (days_from_civil (y + monthIndex / 12) (monthIndex mod 12 + 1) d)
                   (MakeTime h mi 0 0)).

(** ** Decimal fields *)

Definition digit_val (c : ascii) : option Z :=
  let n := Z.of_N (N_of_ascii c) in
  if (48 <=? n) && (n <=? 57) then Some (n - 48) else None.

Definition digit_char (n : Z) : ascii := ascii_of_N (Z.to_N (48 + n mod 10)).

Fixpoint number_of_digits (acc : Z) (cs : list ascii) : option Z :=
  match cs with
  | [] => Some acc
  | c :: cs' =>
      match digit_val c with
      | Some v => number_of_digits (10 * acc + v) cs'
      | None => None
      end
  end.

Definition field (cs : list ascii) : option Z := number_of_digits 0 cs.

Definition pad2 (n : Z) : list ascii := [digit_char (n / 10); digit_char n].
Definition pad3 (n : Z) : list ascii :=
  [digit_char (n / 100); digit_char (n / 10); digit_char n].
Definition pad4 (n : Z) : list ascii :=
  [digit_char (n / 1000); digit_char (n / 100); digit_char (n / 10); digit_char n].
Definition pad6 (n : Z) : list ascii :=
  [digit_char (n / 100000); digit_char (n / 10000)] ++ pad4 n.

Definition is_char (c : ascii) (s : string) : bool :=
  match s with
  | String c' EmptyString => Ascii.eqb c c'
  | _ => false
  end.

(** ** Parsing: the date-time string format *)

(** [new Date(s)] reads the date-time string format
    [YYYY-MM-DDTHH:mm:ss.sssZ]: a date [YYYY], [YYYY-MM] or [YYYY-MM-DD]
    (the year also in the expanded form [+YYYYYY] or [-YYYYYY]), alone or
    followed by [T], a time [HH:mm], [HH:mm:ss] or [HH:mm:ss.sss] and
    possibly an offset [Z], [+HH:mm] or [-HH:mm].  What a string outside
    this format gives is left to the host; here it is an invalid date. *)

(** A reader consumes a prefix of the characters. *)
Definition Reader (A : Type) : Type := list ascii -> option (A * list ascii).

Notation "'let*' p ':=' e 'in' k" :=
  (match e with Some p => k | None => None end)
  (at level 10, p pattern, e at level 100, k at level 200, only parsing).

Definition digits2 : Reader Z := fun cs =>
  match cs with
  | a :: b :: rest => let* v := field [a; b] in Some (v, rest)
  | _ => None
  end.

Definition digits3 : Reader Z := fun cs =>
  match cs with
  | a :: b :: c :: rest => let* v := field [a; b; c] in Some (v, rest)
  | _ => None
  end.

Definition digits4 : Reader Z := fun cs =>
  match cs with
  | a :: b :: c :: d :: rest => let* v := field [a; b; c; d] in Some (v, rest)
  | _ => None
  end.

Definition digits6 : Reader Z := fun cs =>
  match cs with
  | a :: b :: c :: d :: e :: f :: rest =>
      let* v := field [a; b; c; d; e; f] in Some (v, rest)
  | _ => None
  end.

(** The separator [sep], and what follows it. *)
Definition expect (sep : string) (cs : list ascii) : option (list ascii) :=
  match cs with
  | c :: rest => if is_char c sep then Some rest else None
  | [] => None
  end.

(** The year: [YYYY], or a sign and six digits ([-000000] is no year). *)
Definition read_year : Reader Z := fun cs =>
  match expect "+" cs, expect "-" cs with
  | Some rest, _ => digits6 rest
  | None, Some rest =>
      let* (y, r) := digits6 rest in if y =? 0 then None else Some (- y, r)
  | None, None => digits4 cs
  end.

(** The date, as a day number: [YYYY], [YYYY-MM] or [YYYY-MM-DD], a
    missing month or day being the first. *)
Definition read_date : Reader Z := fun cs =>
  let* (y, r0) := read_year cs in
  match expect "-" r0 with
  | None => Some (days_from_civil y 1 1, r0)
  | Some r1 =>
      let* (m, r2) := digits2 r1 in
      if (1 <=? m) && (m <=? 12) then
        match expect "-" r2 with
        | None => Some (days_from_civil y m 1, r2)
        | Some r3 =>
            let* (d, r4) := digits2 r3 in
            if (1 <=? d) && (d <=? 31) then Some (days_from_civil y m d, r4)
            else None
        end
      else None
  end.

(** The seconds [:ss] and milliseconds [.sss], where present. *)
Definition read_seconds : Reader (Z * Z) := fun cs =>
  match expect ":" cs with
  | None => Some ((0, 0), cs)
  | Some r0 =>
      let* (s, r1) := digits2 r0 in
      match expect "." r1 with
      | None => Some ((s, 0), r1)
      | Some r2 => let* (ms, r3) := digits3 r2 in Some ((s, ms), r3)
      end
  end.

(** The time within the day: [HH:mm], [HH:mm:ss] or [HH:mm:ss.sss];
    [24:00:00.000] is the end of the day. *)
Definition read_time : Reader Z := fun cs =>
  let* (h, r0) := digits2 cs in
  let* r1 := expect ":" r0 in
  let* (mi, r2) := digits2 r1 in
  let* ((s, ms), r3) := read_seconds r2 in
  if (h <=? 23) && (mi <=? 59) && (s <=? 59)
     || (h =? 24) && (mi =? 0) && (s =? 0) && (ms =? 0)
  then Some (MakeTime h mi s ms, r3) else None.

(** The offset that ends the string, in minutes east of UTC: [Z], [+HH:mm]
    or [-HH:mm]; [Some None] when the string ends without one. *)
Definition read_offset (cs : list ascii) : option (option Z) :=
  match cs with
  | [] => Some None
  | c :: rest =>
      if is_char c "Z" then
        match rest with [] => Some (Some 0) | _ :: _ => None end
      else
        let* sign := (if is_char c "+" then Some 1
                      else if is_char c "-" then Some (-1) else None) in
        let* (h, r0) := digits2 rest in
        let* r1 := expect ":" r0 in
        let* (mi, r2) := digits2 r1 in
        match r2 with
        | [] => if (h <=? 23) && (mi <=? 59) then Some (Some (sign * (h * 60 + mi)))
                else None
        | _ :: _ => None
        end
  end.

(** [new Date(s)] for a string [s]: a date-only form is UTC midnight, a
    date-time form without offset is local time, one with an offset is the
    time of that offset. *)
Definition parse (tz : Z) (s : string) : option Z :=
  let* (day, r0) := read_date (list_ascii_of_string s) in
  match r0 with
  | [] => Some (MakeDate day 0)
  | _ :: _ =>
      let* r1 := expect "T" r0 in
      let* (w, r2) := read_time r1 in
      let* offset := read_offset r2 in
      match offset with
      | None => Some (UTC tz (MakeDate day w))
      | Some east => Some (UTC east (MakeDate day w))
      end
  end.

(** [d.toISOString()] for a valid time value. *)
Definition toISOString (t : Z) : string :=
  let '(y, m, d) := civil_from_days (Day t) in
  let w := TimeWithinDay t in
  let year :=
    if (0 <=? y) && (y <=? 9999) then pad4 y
    else (if y <? 0 then "-"%char else "+"%char) :: pad6 (Z.abs y) in
  string_of_list_ascii
    (year ++ ["-"%char] ++ pad2 m ++ ["-"%char] ++ pad2 d ++ ["T"%char]
     ++ pad2 (w / msPerHour) ++ [":"%char] ++ pad2 (w mod msPerHour / msPerMinute)
     ++ [":"%char] ++ pad2 (w mod msPerMinute / msPerSecond)
     ++ ["."%char] ++ pad3 (w mod msPerSecond) ++ ["Z"%char]).

(** ** Calendar months *)

Definition isLeapYear (y : Z) : bool :=
  (y mod 4 =? 0) && (negb (y mod 100 =? 0) || (y mod 400 =? 0)).

Definition DaysInMonth (y m : Z) : Z :=
  if m =? 2 then (if isLeapYear y then 29 else 28)
  else if (m =? 4) || (m =? 6) || (m =? 9) || (m =? 11) then 30
  else 31.

(** The value of a date input: [YYYY-MM-DD]. *)
Definition isoDate (y m d : Z) : string :=
  string_of_list_ascii (pad4 y ++ ["-"%char] ++ pad2 m ++ ["-"%char] ++ pad2 d).

(** The month before month [m] of year [y]. *)
Definition previousMonth (y m : Z) : Z * Z :=
  if m =? 1 then (y - 1, 12) else (y, m - 1).

(** Relational operators on dates compare time values; every comparison
    with an invalid date is false. *)
Definition le (a b : option Z) : bool :=
  match a, b with Some x, Some y => x <=? y | _, _ => false end.
Definition lt (a b : option Z) : bool :=
  match a, b with Some x, Some y => x <? y | _, _ => false end.
Definition gt (a b : option Z) : bool := lt b a.

(** A date is valid when its time value is a number. *)
Definition isValid (d : option Z) : bool :=
  match d with Some _ => true | None => false end.

End JSDate.

(* ===================================================================== *)
(** * Data model ([types.ts]) *)
(* ===================================================================== *)

(** The arithmetic of JavaScript numbers the program uses on amounts.  No
    law of arithmetic is assumed of it: sums are the accumulations the
    code performs, in its order. *)
Class JSNumber (number : Type) := {
  zero : number;
  add : number -> number -> number;
  sub : number -> number -> number;
  toFixed2 : number -> string;
  parseFloat : string -> number
}.

Inductive TransactionType := income | expense.

Inductive NotificationSound := default | beep | chime | vibrate | none.

(** An optional string property: absent, [null], or a string. *)
Inductive OptString := undefined | null | str (s : string).

Module Tx.
Record Transaction (number : Type) := {
  id : string;
  type : TransactionType;
  category : string;
  amount : number;
  date : string;
  description : string
}.
Arguments id {number}.
Arguments type {number}.
Arguments category {number}.
Arguments amount {number}.
Arguments date {number}.
Arguments description {number}.
End Tx.

Record Reminder (number : Type) := {
  id : string;
  billName : string;
  amount : number;
  dueDate : string;
  dueTime : string;
  notified : bool;
  notificationSound : NotificationSound;
  snoozeUntil : OptString
}.
Arguments id {number}.
Arguments billName {number}.
Arguments amount {number}.
Arguments dueDate {number}.
Arguments dueTime {number}.
Arguments notified {number}.
Arguments notificationSound {number}.
Arguments snoozeUntil {number}.

Inductive Permission := granted | denied | undetermined.

(** What the browser tells the program when it asks. *)
Record Host := {
  tz : Z;                    (* local offset, minutes east of UTC *)
  hidden : bool;             (* document.hidden *)
  permission : Permission;   (* Notification.permission *)
  audioContext : bool;       (* an AudioContext could be created *)
  canVibrate : bool          (* 'vibrate' in navigator *)
}.

(** What the program does to the outside world. *)
Inductive Effect :=
| PlayTone (freq duration : Q)
| PlayToneAfter (delay : Z) (freq duration : Q)
| VibrateDevice (pattern : list Z)
| ShowNotification (title body : string) (silent : bool).

Record State (number : Type) := {
  reminders : list (Reminder number);
  activeNotifications : list (Reminder number)
}.
Arguments reminders {number}.
Arguments activeNotifications {number}.

(** The fields of the reminder form ([ReminderModal]'s component state). *)
Record ReminderForm := {
  form_billName : string;
  form_amount : string;
  form_dueDate : string;
  form_dueTime : string;
  form_notificationSound : NotificationSound
}.

Definition sound_eqb (a b : NotificationSound) : bool :=
  match a, b with
  | default, default | beep, beep | chime, chime
  | vibrate, vibrate | none, none => true
  | _, _ => false
  end.

Definition truthy (s : OptString) : bool :=
  match s with
  | str s' => negb (String.eqb s' EmptyString)
  | _ => false
  end.

(** Threading a state through [Array.prototype.map]'s callback. *)
Fixpoint map_st {S A B : Type} (f : S -> A -> S * B) (s : S) (l : list A)
  : S * list B :=
  match l with
  | [] => (s, [])
  | a :: l' =>
      let '(s1, b) := f s a in
      let '(s2, bs) := map_st f s1 l' in
      (s2, b :: bs)
  end.

(** [n.toString()] of an integer. *)
Definition Z_toString (n : Z) : string := NilZero.string_of_int (Z.to_int n).

(* ===================================================================== *)
(** * [BudgetTrackerApp] ([App.tsx]) *)
(* ===================================================================== *)

Section App.
Context {number : Type} `{JSNumber number}.

Local Abbreviation Reminder := (Reminder number).
Local Abbreviation Transaction := (Tx.Transaction number).
Local Abbreviation State := (State number).

(** ** Month aggregation *)

Definition sameMonth (tz viewDate : Z) (s : string) : bool :=
  match JSDate.parse tz s with
  | Some d =>
      (JSDate.getFullYear tz d =? JSDate.getFullYear tz viewDate)
      && (JSDate.getMonth tz d =? JSDate.getMonth tz viewDate)
  | None => false
  end.

Definition filteredTransactions (tz viewDate : Z) (transactions : list Transaction)
  : list Transaction :=
  filter (fun t => sameMonth tz viewDate (Tx.date t)) transactions.

Definition filteredReminders (tz viewDate : Z) (rs : list Reminder) : list Reminder :=
  filter (fun r => sameMonth tz viewDate (dueDate r)) rs.

Definition isIncome (t : Transaction) : bool :=
  match Tx.type t with income => true | expense => false end.
Definition isExpense (t : Transaction) : bool :=
  match Tx.type t with expense => true | income => false end.

Definition reduceAmounts (ts : list Transaction) : number :=
  fold_left (fun sum t => add sum (Tx.amount t)) ts zero.

Definition totalIncome (filtered : list Transaction) : number :=
  reduceAmounts (filter isIncome filtered).
Definition totalExpenses (filtered : list Transaction) : number :=
  reduceAmounts (filter isExpense filtered).
Definition balance (filtered : list Transaction) : number :=
  sub (totalIncome filtered) (totalExpenses filtered).

(** ** Audio cue *)

Definition playNotificationSound (h : Host) (sound : NotificationSound)
  : list Effect :=
  if negb (audioContext h) then []
  else
    match sound with
    | beep => [PlayTone 880 (1 # 5)]
    | chime => [PlayTone (2093 # 2) (3 # 20);
                PlayToneAfter 150 (13969 # 10) (3 # 20)]
    | vibrate => if canVibrate h then [VibrateDevice [200; 100; 200]] else []
    | _ => []
    end.

(** ** Due detection *)

Definition dueInstant (tz : Z) (r : Reminder) : option Z :=
  JSDate.parse tz (dueDate r ++ "T" ++ dueTime r).

Definition isDue (tz now : Z) (r : Reminder) : bool :=
  JSDate.le (dueInstant tz r) (Some now).

Definition isSnoozed (tz now : Z) (r : Reminder) : bool :=
  match snoozeUntil r with
  | str s => truthy (str s) && JSDate.lt (Some now) (JSDate.parse tz s)
  | _ => false
  end.

Definition markNotified (r : Reminder) : Reminder :=
  {| id := id r; billName := billName r; amount := amount r;
     dueDate := dueDate r; dueTime := dueTime r;
     notified := true;
     notificationSound := notificationSound r; snoozeUntil := snoozeUntil r |}.

(** The test of the callback below, named as the specification names it. *)
Definition newlyDue (tz now : Z) (r : Reminder) : bool :=
  isDue tz now r && negb (notified r) && negb (isSnoozed tz now r).

(** The instant a truthy [snoozeUntil] denotes. *)
Definition snoozeInstant (tz : Z) (r : Reminder) : option Z :=
  match snoozeUntil r with
  | str s => if truthy (str s) then JSDate.parse tz s else None
  | _ => None
  end.

(** The strings of a reminder are what [types.ts] says they are: the due
    date and time ([YYYY-MM-DD], [HH:mm]) make a date-time string, and a
    [snoozeUntil] that is set is one (an ISO string). *)
Definition wellFormed (tz : Z) (r : Reminder) : bool :=
  JSDate.isValid (JSDate.parse tz (dueDate r ++ "T" ++ dueTime r))
  && match snoozeUntil r with
     | str s => negb (truthy (str s)) || JSDate.isValid (JSDate.parse tz s)
     | _ => true
     end.

(** [r'] carries the descriptive fields of [r]. *)
Definition sameBill (r r' : Reminder) : Prop :=
  id r' = id r /\ billName r' = billName r /\ amount r' = amount r
  /\ dueDate r' = dueDate r /\ dueTime r' = dueTime r
  /\ notificationSound r' = notificationSound r.

(** The callback of [reminders.map] in [checkReminders]; the state is
    the [dueReminders] array it pushes onto. *)
Definition checkOne (tz now : Z) (dueReminders : list Reminder) (r : Reminder)
  : list Reminder * Reminder :=
  if isDue tz now r && negb (notified r) && negb (isSnoozed tz now r)
  then ((dueReminders ++ [r])%list, markNotified r)
  else (dueReminders, r).

(** [evaluate tz now rs = (fired, updated)]. *)
Definition evaluate (tz now : Z) (rs : list Reminder)
  : list Reminder * list Reminder :=
  map_st (checkOne tz now) [] rs.

Definition fired (tz now : Z) (rs : list Reminder) : list Reminder :=
  fst (evaluate tz now rs).
Definition updated (tz now : Z) (rs : list Reminder) : list Reminder :=
  snd (evaluate tz now rs).

(** ** Routing a fired reminder *)

Definition notificationBody (r : Reminder) : string :=
  billName r ++ " for $" ++ toFixed2 (amount r) ++ " is due!".

Definition permission_granted (p : Permission) : bool :=
  match p with granted => true | _ => false end.

(** The body of [dueReminders.forEach]. *)
Definition route (h : Host) (acc : State * list Effect) (r : Reminder)
  : State * list Effect :=
  let '(st, eff) := acc in
  let eff1 := (eff ++ playNotificationSound h (notificationSound r))%list in
  if hidden h then
    if permission_granted (permission h) then
      (st, (eff1 ++ [ShowNotification "Bill Reminder" (notificationBody r)
                       (negb (sound_eqb (notificationSound r) default))])%list)
    else (st, eff1)
  else
    ({| reminders := reminders st;
        activeNotifications :=
          (filter (fun n => negb (String.eqb (id n) (id r))) (activeNotifications st)
           ++ [r])%list |},
     eff1).

Definition checkReminders (h : Host) (now : Z) (st : State) : State * list Effect :=
  let '(dueReminders, updatedReminders) := evaluate (tz h) now (reminders st) in
  if (0 <? Z.of_nat (List.length dueReminders)) then
    fold_left (route h) dueReminders
      ({| reminders := updatedReminders;
          activeNotifications := activeNotifications st |}, [])
  else (st, []).

(** ** Reminder handlers *)

Definition handleSaveReminder (reminder : Reminder) (st : State) : State :=
  {| reminders :=
       if existsb (fun r => String.eqb (id r) (id reminder)) (reminders st)
       then map (fun r => if String.eqb (id r) (id reminder) then reminder else r)
                (reminders st)
       else (reminders st ++ [reminder])%list;
     activeNotifications := activeNotifications st |}.

Definition handleDeleteReminder (id0 : string) (st : State) : State :=
  {| reminders := filter (fun r => negb (String.eqb (id r) id0)) (reminders st);
     activeNotifications := activeNotifications st |}.

Definition snoozeOne (now : Z) (id0 : string) (r : Reminder) : Reminder :=
  if String.eqb (id r) id0 then
    {| id := id r; billName := billName r; amount := amount r;
       dueDate := dueDate r; dueTime := dueTime r;
       notified := false;
       notificationSound := notificationSound r;
       snoozeUntil := str (JSDate.toISOString (now + 10 * 60 * 1000)) |}
  else r.

Definition handleSnoozeReminder (now : Z) (id0 : string) (st : State) : State :=
  {| reminders := map (snoozeOne now id0) (reminders st);
     activeNotifications :=
       filter (fun n => negb (String.eqb (id n) id0)) (activeNotifications st) |}.

Definition handleDismissNotification (id0 : string) (st : State) : State :=
  {| reminders := reminders st;
     activeNotifications :=
       filter (fun n => negb (String.eqb (id n) id0)) (activeNotifications st) |}.

(** ** [ReminderModal.handleSubmit] *)

Definition shouldResetStatus (tz now : Z) (reminderToEdit : option Reminder)
  (f : ReminderForm) : bool :=
  match reminderToEdit with
  | None => false
  | Some e =>
      (negb (String.eqb (dueDate e) (form_dueDate f))
       || negb (String.eqb (dueTime e) (form_dueTime f)))
      && JSDate.gt (JSDate.parse tz (form_dueDate f ++ "T" ++ form_dueTime f))
                   (Some now)
  end.

Definition handleSubmit (tz now : Z) (reminderToEdit : option Reminder)
  (f : ReminderForm) : Reminder :=
  let reset := shouldResetStatus tz now reminderToEdit f in
  {| id := match reminderToEdit with
           | Some e => id e
           | None => Z_toString now
           end;
     billName := form_billName f;
     amount := parseFloat (form_amount f);
     dueDate := form_dueDate f;
     dueTime := form_dueTime f;
     notified := if reset then false
                 else match reminderToEdit with
                      | Some e => notified e
                      | None => false
                      end;
     notificationSound := form_notificationSound f;
     snoozeUntil := if reset then null
                    else match reminderToEdit with
                         | Some e => snoozeUntil e
                         | None => null
                         end |}.

Definition isOSNotification (e : Effect) : bool :=
  match e with ShowNotification _ _ _ => true | _ => false end.

Definition osNotifications (effs : list Effect) : list Effect :=
  filter isOSNotification effs.

Definition hasId (id0 : string) (r : Reminder) : bool := String.eqb (id r) id0.

(** Every toast belongs to a reminder of the store. *)
Definition activeWithinStore (st : State) : bool :=
  forallb (fun n => existsb (hasId (id n)) (reminders st)) (activeNotifications st).

Definition withinStore (st : State) : Prop :=
  forall n, In n (activeNotifications st) -> In (id n) (map id (reminders st)).

(** ** The application as a transition system *)

Inductive Op :=
| Tick (h : Host) (now : Z)
| SubmitReminder (tz now : Z) (reminderToEdit : option Reminder) (f : ReminderForm)
| DeleteReminder (id0 : string)
| Snooze (now : Z) (id0 : string)
| Dismiss (id0 : string).

Definition step (st : State) (op : Op) : State :=
  match op with
  | Tick h now => fst (checkReminders h now st)
  | SubmitReminder tz now e f => handleSaveReminder (handleSubmit tz now e f) st
  | DeleteReminder id0 => handleDeleteReminder id0 st
  | Snooze now id0 => handleSnoozeReminder now id0 st
  | Dismiss id0 => handleDismissNotification id0 st
  end.

Definition run (st : State) (ops : list Op) : State := fold_left step ops st.

(** Successive evaluations, each fed the previous one's updated list:
    the fired list of every tick. *)
Fixpoint firedPerTick (tz : Z) (ticks : list Z) (rs : list Reminder)
  : list (list Reminder) :=
  match ticks with
  | [] => []
  | now :: ticks' =>
      fired tz now rs :: firedPerTick tz ticks' (updated tz now rs)
  end.

End App.

(* ===================================================================== *)
(** * More of the host's [Date] object *)
(* ===================================================================== *)

Module JSHost.
Import JSDate.

(** Two-digit years given to the [Date] constructor mean 19xx. *)
Definition MakeFullYear (y : Z) : Z :=
  if (0 <=? y) && (y <=? 99) then 1900 + y else y.

(** [new Date(year, monthIndex, day)]: local midnight. *)
Definition newDate (tz y monthIndex d : Z) : Z :=
  ofLocalFields tz (MakeFullYear y) monthIndex d 0 0.

(** [d.getDate()]. *)
Definition getDate (tz t : Z) : Z := DateFromTime (LocalTime tz t).

(** [d.setDate(dt)]: the day of the month is replaced in local time,
    the time of day kept; a day outside the month rolls over. *)
Definition setDate (tz t dt : Z) : Z :=
  let l := LocalTime tz t in
  UTC tz (MakeDate (days_from_civil (YearFromTime l) (MonthFromTime l + 1) dt)
                   (TimeWithinDay l)).

(** Day of the week, 0 for Sunday; the epoch was a Thursday. *)
Definition WeekDay (t : Z) : Z := (Day t + 4) mod 7.

Definition weekdayShort (w : Z) : string :=
  if w =? 0 then "Sun" else if w =? 1 then "Mon" else if w =? 2 then "Tue"
  else if w =? 3 then "Wed" else if w =? 4 then "Thu" else if w =? 5 then "Fri"
  else "Sat".

(** [d.toLocaleDateString('en-US', { weekday: 'short' })]. *)
Definition toLocaleWeekday (tz t : Z) : string :=
  weekdayShort (WeekDay (LocalTime tz t)).

Definition HourFromTime (t : Z) : Z := (t / msPerHour) mod 24.
Definition MinFromTime (t : Z) : Z := (t / msPerMinute) mod 60.

(** [d.toTimeString().substring(0, 5)]: the local [HH:mm]. *)
Definition toTimeString_hhmm (tz t : Z) : string :=
  let l := LocalTime tz t in
  string_of_list_ascii (pad2 (HourFromTime l) ++ [":"%char] ++ pad2 (MinFromTime l)).

(** [s.split('T')[0]]. *)
Fixpoint beforeT (s : string) : string :=
  match s with
  | EmptyString => EmptyString
  | String c s' => if Ascii.eqb c "T" then EmptyString else String c (beforeT s')
  end.

End JSHost.

(* ===================================================================== *)
(** * [useAuth] ([App.tsx]) *)
(* ===================================================================== *)

(** The result of reading a property of the [users] object. *)
Inductive Lookup :=
| NoProperty                 (* undefined *)
| OwnString (s : string)     (* a stored password *)
| Inherited.                 (* a member of the prototype: an object or function *)

(** The promise a credential operation returns. *)
Inductive Outcome := Resolved | Rejected (message : string).

Record AuthState := {
  users : list (string * string);      (* own properties of the users object *)
  currentUsername : option string      (* [None] is null *)
}.

Section Auth.
(** The property names an empty object inherits ([toString],
    [constructor], ...). *)
Variable inherited : string -> bool.

Fixpoint own (us : list (string * string)) (k : string) : option string :=
  match us with
  | [] => None
  | (k', v) :: us' => if String.eqb k' k then Some v else own us' k
  end.

(** [users[username]]. *)
Definition getProp (us : list (string * string)) (k : string) : Lookup :=
  match own us k with
  | Some v => OwnString v
  | None => if inherited k then Inherited else NoProperty
  end.

Definition lookup_truthy (l : Lookup) : bool :=
  match l with
  | NoProperty => false
  | OwnString s => negb (String.eqb s EmptyString)
  | Inherited => true
  end.

(** [users[username] !== password]. *)
Definition lookup_differs (l : Lookup) (password : string) : bool :=
  match l with
  | OwnString s => negb (String.eqb s password)
  | _ => true
  end.

(** [{ ...prev, [username]: password }]. *)
Fixpoint setProp (us : list (string * string)) (k v : string)
  : list (string * string) :=
  match us with
  | [] => [(k, v)]
  | (k', v') :: us' =>
      if String.eqb k' k then (k', v) :: us' else (k', v') :: setProp us' k v
  end.

Definition signup (username password : string) (st : AuthState)
  : AuthState * Outcome :=
  if String.eqb username EmptyString || String.eqb password EmptyString then
    (st, Rejected "Username and password are required.")
  else if lookup_truthy (getProp (users st) username) then
    (st, Rejected "User already exists. Please choose a different username.")
  else
    ({| users := setProp (users st) username password;
        currentUsername := Some username |}, Resolved).

Definition login (username password : string) (st : AuthState)
  : AuthState * Outcome :=
  if negb (lookup_truthy (getProp (users st) username))
     || lookup_differs (getProp (users st) username) password then
    (st, Rejected "Invalid username or password.")
  else
    ({| users := users st; currentUsername := Some username |}, Resolved).

Definition logout (st : AuthState) : AuthState :=
  {| users := users st; currentUsername := None |}.

(** [currentUsername ? { username: currentUsername } : null]. *)
Definition user (st : AuthState) : option string :=
  match currentUsername st with
  | Some u => if String.eqb u EmptyString then None else Some u
  | None => None
  end.

Inductive AuthOp :=
| Signup (username password : string)
| Login (username password : string)
| Logout.

Definition authStep (st : AuthState) (op : AuthOp) : AuthState :=
  match op with
  | Signup u p => fst (signup u p st)
  | Login u p => fst (login u p st)
  | Logout => logout st
  end.

(** The signed-in user, if any, has a stored, non-empty password. *)
Definition signedInIsRegistered (st : AuthState) : Prop :=
  forall u, currentUsername st = Some u ->
    exists p, own (users st) u = Some p /\ p <> EmptyString.

End Auth.

(* ===================================================================== *)
(** * Transactions, the month navigator, the forms and the weekly chart *)
(* ===================================================================== *)

(** The fields of the transaction form ([TransactionModal]'s state). *)
Record TransactionForm := {
  tform_type : TransactionType;
  tform_amount : string;
  tform_category : string;
  tform_date : string;
  tform_description : string
}.

Inductive NavOp := PreviousMonth | NextMonth | GoToCurrentMonth.

(** [MonthNavigator]: the viewed date, and the memoised [isCurrentMonth]
    computed when the viewed date was last set. *)
Record NavState := {
  viewDate : Z;
  isCurrentMonthMemo : bool
}.

Module Bucket.
(** An element of [dataByDay]. *)
Record DayBucket (number : Type) := {
  name : string;
  income : number;
  expenses : number
}.
Arguments name {number}.
Arguments income {number}.
Arguments expenses {number}.
End Bucket.

(** In-place update of the element at an index; dormant out of range
    (the chart guards the index). *)
Fixpoint update_at {A : Type} (i : nat) (f : A -> A) (l : list A) : list A :=
  match l, i with
  | [], _ => []
  | a :: l', O => f a :: l'
  | a :: l', S i' => a :: update_at i' f l'
  end.

Section AppRest.
Context {number : Type} `{JSNumber number}.
Local Abbreviation Transaction := (Tx.Transaction number).
Local Abbreviation Reminder := (Reminder number).

(** ** Transaction handlers *)

Definition handleSaveTransaction (transaction : Transaction) (prev : list Transaction)
  : list Transaction :=
  if existsb (fun t => String.eqb (Tx.id t) (Tx.id transaction)) prev
  then map (fun t => if String.eqb (Tx.id t) (Tx.id transaction) then transaction else t)
           prev
  else (prev ++ [transaction])%list.

Definition handleDeleteTransaction (id0 : string) (transactions : list Transaction)
  : list Transaction :=
  filter (fun t => negb (String.eqb (Tx.id t) id0)) transactions.

(** ** [TransactionModal] *)

(** The date field when the form opens: today's date for a new
    transaction, the stored date re-rendered for an edit.  [None] when
    [toISOString] throws on an invalid date. *)
Definition TransactionModal_initialDate (tz now : Z)
  (transactionToEdit : option Transaction) : option string :=
  match transactionToEdit with
  | Some e =>
      option_map (fun t => JSHost.beforeT (JSDate.toISOString t))
                 (JSDate.parse tz (Tx.date e))
  | None => Some (JSHost.beforeT (JSDate.toISOString now))
  end.

Definition TransactionModal_handleSubmit (now : Z)
  (transactionToEdit : option Transaction) (f : TransactionForm) : Transaction :=
  {| Tx.id := match transactionToEdit with
              | Some e => Tx.id e
              | None => Z_toString now
              end;
     Tx.type := tform_type f;
     Tx.amount := parseFloat (tform_amount f);
     Tx.category := tform_category f;
     Tx.date := tform_date f;
     Tx.description := tform_description f |}.

(** ** [ReminderModal.resetForm] *)

Definition ReminderModal_resetForm (tz now : Z) : ReminderForm :=
  {| form_billName := EmptyString;
     form_amount := EmptyString;
     form_dueDate := JSHost.beforeT (JSDate.toISOString now);
     form_dueTime := JSHost.toTimeString_hhmm tz now;
     form_notificationSound := default |}.

(** ** [MonthNavigator] *)

Definition isCurrentMonth (tz today viewDate : Z) : bool :=
  (JSDate.getFullYear tz today =? JSDate.getFullYear tz viewDate)
  && (JSDate.getMonth tz today =? JSDate.getMonth tz viewDate).

Definition changeMonth (tz viewDate amount : Z) : Z :=
  JSHost.newDate tz (JSDate.getFullYear tz viewDate)
                 (JSDate.getMonth tz viewDate + amount) 1.

(** Months counted from year 0. *)
Definition monthOrdinal (tz t : Z) : Z :=
  12 * JSDate.getFullYear tz t + JSDate.getMonth tz t.

(** [setViewDate(v)] followed by the render that recomputes the memo at
    clock reading [today]. *)
Definition setViewDate (tz today v : Z) : NavState :=
  {| viewDate := v; isCurrentMonthMemo := isCurrentMonth tz today v |}.

(** A click in the navigator at clock reading [today]: the next-month
    button is disabled, and the go-to-current-month link absent, while
    the memo says the current month is viewed. *)
Definition navigate (tz : Z) (st : NavState) (click : Z * NavOp) : NavState :=
  let '(today, op) := click in
  match op with
  | PreviousMonth => setViewDate tz today (changeMonth tz (viewDate st) (-1))
  | NextMonth =>
      if isCurrentMonthMemo st then st
      else setViewDate tz today (changeMonth tz (viewDate st) 1)
  | GoToCurrentMonth =>
      if isCurrentMonthMemo st then st else setViewDate tz today today
  end.

(** The clock never goes back to an earlier month. *)
Fixpoint clockAdvances (tz : Z) (c : Z) (clicks : list (Z * NavOp)) : Prop :=
  match clicks with
  | [] => True
  | (today, _) :: rest =>
      monthOrdinal tz c <= monthOrdinal tz today /\ clockAdvances tz today rest
  end.

(** ** [WeeklySummaryBarChart] ([components/Charts.tsx]) *)

Local Abbreviation DayBucket := (Bucket.DayBucket number).

(** [Array(7).fill(null).map((_, i) => ...).reverse()]. *)
Definition emptyWeek (tz now : Z) : list DayBucket :=
  rev (map (fun i =>
              {| Bucket.name :=
                   JSHost.toLocaleWeekday tz
                     (JSHost.setDate tz now (JSHost.getDate tz now - Z.of_nat i));
                 Bucket.income := zero;
                 Bucket.expenses := zero |})
           (seq 0 7)).

Definition addToBucket (t : Transaction) (b : DayBucket) : DayBucket :=
  match Tx.type t with
  | income =>
      {| Bucket.name := Bucket.name b;
         Bucket.income := add (Bucket.income b) (Tx.amount t);
         Bucket.expenses := Bucket.expenses b |}
  | expense =>
      {| Bucket.name := Bucket.name b;
         Bucket.income := Bucket.income b;
         Bucket.expenses := add (Bucket.expenses b) (Tx.amount t) |}
  end.

(** [Math.floor((today - tDate) / (1000 * 3600 * 24))]; [None] is NaN. *)
Definition diffDays (tz now : Z) (t : Transaction) : option Z :=
  option_map (fun d => (now - d) / (1000 * 3600 * 24)) (JSDate.parse tz (Tx.date t)).

(** The body of [transactions.forEach]. *)
Definition countTransaction (tz now : Z) (dataByDay : list DayBucket) (t : Transaction)
  : list DayBucket :=
  match diffDays tz now t with
  | Some dd =>
      if (0 <=? dd) && (dd <? 7)
      then update_at (Z.to_nat (6 - dd)) (addToBucket t) dataByDay
      else dataByDay
  | None => dataByDay
  end.

(** The transaction is dated [6 - k] whole days before the clock
    reading: it belongs to position [k] of the chart. *)
Definition inBucket (tz now : Z) (k : nat) (t : Transaction) : bool :=
  match diffDays tz now t with
  | Some dd => dd =? 6 - Z.of_nat k
  | None => false
  end.

(** What the transactions [ts] add to the bucket at position [k]. *)
Definition accumulated (tz now : Z) (k : nat) (ts : list Transaction) (b : DayBucket)
  : DayBucket :=
  {| Bucket.name := Bucket.name b;
     Bucket.income :=
       fold_left add
         (map Tx.amount (filter (fun t => isIncome t && inBucket tz now k t) ts))
         (Bucket.income b);
     Bucket.expenses :=
       fold_left add
         (map Tx.amount (filter (fun t => isExpense t && inBucket tz now k t) ts))
         (Bucket.expenses b) |}.

Definition weeklyData (tz now : Z) (transactions : list Transaction) : list DayBucket :=
  fold_left (countTransaction tz now) transactions (emptyWeek tz now).

(** [DashboardView] hands the chart the transactions of the viewed
    month. *)
Definition dashboardWeeklyData (tz viewDate now : Z) (transactions : list Transaction)
  : list DayBucket :=
  weeklyData tz now (filteredTransactions tz viewDate transactions).

End AppRest.

(* ===================================================================== *)
(** * The reminder editor ([handleEditReminder], [ReminderModal]) *)
(* ===================================================================== *)

(** The page: the store and the toasts, and [reminderToEdit], the reminder
    the editor was opened on ([None]: a new reminder, or no editor).
    Whether the modal is shown ([isReminderModalOpen]) changes nothing of
    what is stored and is left out. *)
Record Page (number : Type) := {
  appState : State number;
  reminderToEdit : option (Reminder number)
}.
Arguments appState {number}.
Arguments reminderToEdit {number}.

Section Editor.
Context {number : Type} `{JSNumber number}.

Local Abbreviation Reminder := (Reminder number).
Local Abbreviation State := (State number).
Local Abbreviation Page := (Page number).

Definition handleEditReminder (reminder : Reminder) (p : Page) : Page :=
  {| appState := appState p; reminderToEdit := Some reminder |}.

Definition openAddReminderModal (p : Page) : Page :=
  {| appState := appState p; reminderToEdit := None |}.

(** The edit button of a listed reminder calls [onEdit(reminder)] with the
    reminder of the store as the list renders it. *)
Definition clickEdit (id0 : string) (p : Page) : Page :=
  match find (hasId id0) (reminders (appState p)) with
  | Some r => handleEditReminder r p
  | None => p
  end.

(** Submitting the form: [handleSubmit] builds the reminder from the form
    and [reminderToEdit], and [onSave] is [handleSaveReminder], which
    stores it and clears [reminderToEdit]. *)
Definition submitReminder (tz now : Z) (f : ReminderForm) (p : Page) : Page :=
  {| appState :=
       handleSaveReminder (handleSubmit tz now (reminderToEdit p) f) (appState p);
     reminderToEdit := None |}.

(** What goes on beside the open editor: the ticks of the interval and
    the buttons of the toasts, which do not touch [reminderToEdit]. *)
Definition beside (op : Op) (p : Page) : Page :=
  {| appState := step (appState p) op; reminderToEdit := reminderToEdit p |}.

(** The reminder of the store that the editor is open on, as it is
    stored now. *)
Definition persisted (p : Page) : option Reminder :=
  match reminderToEdit p with
  | Some e => find (hasId (id e)) (reminders (appState p))
  | None => None
  end.

End Editor.

(* ===================================================================== *)
(** * Sample data *)
(* ===================================================================== *)

Module Sample.

(** Whole-unit amounts. *)
#[global] Instance wholeUnits : JSNumber Z := {|
  zero := 0;
  add := Z.add;
  sub := Z.sub;
  toFixed2 := fun n => Z_toString n ++ ".00";
  parseFloat := fun s =>
    match JSDate.field (list_ascii_of_string s) with
    | Some n => n
    | None => 0
    end
|}.

Definition rent : Reminder Z :=
  {| id := "1709200000000"; billName := "Rent"; amount := 1200;
     dueDate := "2024-03-01"; dueTime := "09:00"; notified := false;
     notificationSound := default; snoozeUntil := null |}.

Definition power : Reminder Z :=
  {| id := "1709200000001"; billName := "Electricity"; amount := 75;
     dueDate := "2024-03-01"; dueTime := "09:00"; notified := false;
     notificationSound := beep; snoozeUntil := str "2024-03-01T09:10:00.000Z" |}.

(** A reminder that has already been announced. *)
Definition paidRent : Reminder Z :=
  {| id := "1709200000000"; billName := "Rent"; amount := 1200;
     dueDate := "2024-03-01"; dueTime := "09:00"; notified := true;
     notificationSound := default; snoozeUntil := null |}.

(** Snoozed until 14:10 UTC, written without milliseconds. *)
Definition gas : Reminder Z :=
  {| id := "1709200000002"; billName := "Gas"; amount := 60;
     dueDate := "2024-03-01"; dueTime := "09:00"; notified := false;
     notificationSound := chime; snoozeUntil := str "2024-03-01T14:10:00Z" |}.

(** Due ten minutes after the rent. *)
Definition insurance : Reminder Z :=
  {| id := "1709200000003"; billName := "Insurance"; amount := 300;
     dueDate := "2024-03-01"; dueTime := "09:10"; notified := false;
     notificationSound := vibrate; snoozeUntil := null |}.

(** The rent after its toast was snoozed at 09:05 UTC. *)
Definition snoozedRent : Reminder Z :=
  {| id := "1709200000000"; billName := "Rent"; amount := 1200;
     dueDate := "2024-03-01"; dueTime := "09:00"; notified := false;
     notificationSound := default; snoozeUntil := str "2024-03-01T09:15:00.000Z" |}.

(** 2024-03-01, 09:00 / 09:05 / 09:10 / 09:11 UTC. *)
Definition t0900 : Z := 1709283600000.
Definition t0905 : Z := 1709283900000.
Definition t0910 : Z := 1709284200000.
Definition t0911 : Z := 1709284260000.
Definition t0916 : Z := 1709284560000.

(** A visible page in a UTC browser. *)
Definition foreground : Host :=
  {| tz := 0; hidden := false; permission := granted;
     audioContext := true; canVibrate := true |}.

Definition background : Host :=
  {| tz := 0; hidden := true; permission := granted;
     audioContext := true; canVibrate := true |}.

(** New York in winter: five hours west of UTC. *)
Definition eastern : Z := -300.

(** 2024-03-01, 09:00 and 09:05 in New York: 14:00 and 14:05 UTC. *)
Definition t0900_eastern : Z := 1709301600000.
Definition t0905_eastern : Z := 1709301900000.

Definition groceries : Tx.Transaction Z :=
  {| Tx.id := "1706800000000"; Tx.type := expense; Tx.category := "Groceries";
     Tx.amount := 40; Tx.date := "2024-02-01"; Tx.description := EmptyString |}.

Definition salary : Tx.Transaction Z :=
  {| Tx.id := "1706700000000"; Tx.type := income; Tx.category := "Salary";
     Tx.amount := 100; Tx.date := "2024-01-31"; Tx.description := EmptyString |}.

(** Noon on the 15th, local time. *)
Definition midJanuary (tz : Z) : Z := JSDate.ofLocalFields tz 2024 0 15 12 0.
Definition midFebruary (tz : Z) : Z := JSDate.ofLocalFields tz 2024 1 15 12 0.

Definition rescheduled : ReminderForm :=
  {| form_billName := "Rent"; form_amount := "1250";
     form_dueDate := "2024-04-01"; form_dueTime := "09:00";
     form_notificationSound := chime |}.

(** The form of the editor opened on [rent], as it is shown. *)
Definition unchanged : ReminderForm :=
  {| form_billName := "Rent"; form_amount := "1200";
     form_dueDate := "2024-03-01"; form_dueTime := "09:00";
     form_notificationSound := default |}.

End Sample.

(** The editor is opened on the pending [rent]; the 09:05 tick fires the
    reminder; the form is saved at 09:10 as it was shown. *)
Module EditDuringTick.

Definition start : Page Z :=
  {| appState := {| reminders := [Sample.rent]; activeNotifications := [] |};
     reminderToEdit := None |}.
Definition opened : Page Z := clickEdit (id Sample.rent) start.
Definition ticked : Page Z := beside (Tick Sample.foreground Sample.t0905) opened.
Definition saved : Page Z := submitReminder 0 Sample.t0910 Sample.unchanged ticked.

End EditDuringTick.

(** The editor is opened on the announced [paidRent], whose toast is on
    the screen; the toast's Snooze button is pressed at 09:05; the form is
    saved at 09:10 as it was shown. *)
Module EditDuringSnooze.

Definition start : Page Z :=
  {| appState := {| reminders := [Sample.paidRent];
               activeNotifications := [Sample.rent] |};
     reminderToEdit := None |}.
Definition opened : Page Z := clickEdit (id Sample.paidRent) start.
Definition snoozed : Page Z := beside (Snooze Sample.t0905 (id Sample.paidRent)) opened.
Definition saved : Page Z := submitReminder 0 Sample.t0910 Sample.unchanged snoozed.

End EditDuringSnooze.

(* ===================================================================== *)
(** * More sample data *)
(* ===================================================================== *)

Module Sample2.

(** The property names of [Object.prototype]. *)
Definition objectPrototype (k : string) : bool :=
  existsb (String.eqb k)
    ["constructor"; "hasOwnProperty"; "isPrototypeOf"; "propertyIsEnumerable";
     "toLocaleString"; "toString"; "valueOf"; "__proto__";
     "__defineGetter__"; "__defineSetter__"; "__lookupGetter__"; "__lookupSetter__"].

Definition nobody : AuthState := {| users := []; currentUsername := None |}.

Definition coffee : Tx.Transaction Z :=
  {| Tx.id := "1709200000005"; Tx.type := expense; Tx.category := "Coffee";
     Tx.amount := 4; Tx.date := "2024-03-01"; Tx.description := EmptyString |}.

Definition coffeeForm : TransactionForm :=
  {| tform_type := expense; tform_amount := "4"; tform_category := "Coffee";
     tform_date := "2024-03-01"; tform_description := EmptyString |}.

(** 2024-03-01T09:05Z seen from New York, and a week of clicks. *)
Definition march : Z := Sample.t0905.
Definition april : Z := JSDate.ofLocalFields 0 2024 3 2 8 0.

End Sample2.

(* ===================================================================== *)
(** * Facts about dates *)
(* ===================================================================== *)

Module JSDateFacts.
Import JSDate.

(** Division and remainder by constants, as linear integer arithmetic. *)
Ltac divmod := Z.div_mod_to_equations; lia.

(** Settle the comparisons of the goal that linear arithmetic decides. *)
Ltac settle_comparisons :=
  repeat match goal with
    | |- context [?a <=? ?b] =>
        first [ replace (a <=? b) with true by (symmetry; apply Z.leb_le; lia)
              | replace (a <=? b) with false by (symmetry; apply Z.leb_gt; lia) ]
    | |- context [?a <? ?b] =>
        first [ replace (a <? b) with true by (symmetry; apply Z.ltb_lt; lia)
              | replace (a <? b) with false by (symmetry; apply Z.ltb_ge; lia) ]
    end.

(** Evaluate comparisons between literals, here and in the context. *)
Ltac literal_comparisons :=
  cbn [Z.eqb Pos.eqb Z.ltb Z.leb Z.compare Pos.compare Pos.compare_cont orb] in *.

(** One case per month. *)
Ltac each_month m tac :=
  let Hc := fresh "Hc" in
  assert (Hc : m = 1 \/ m = 2 \/ m = 3 \/ m = 4 \/ m = 5 \/ m = 6 \/ m = 7
               \/ m = 8 \/ m = 9 \/ m = 10 \/ m = 11 \/ m = 12) by lia;
  repeat (destruct Hc as [Hc | Hc]; [subst m; tac |]);
  subst m; tac.

Example toISOString_epoch : toISOString 0 = "1970-01-01T00:00:00.000Z".
Proof. reflexivity. Qed.

Example toISOString_sample : toISOString 1709283900123 = "2024-03-01T09:05:00.123Z".
Proof. vm_compute. reflexivity. Qed.

Example parse_utc_sample : parse 330 "2024-03-01T09:05:00.123Z" = Some 1709283900123.
Proof. vm_compute. reflexivity. Qed.

(** 09:05 in New York is 14:05 UTC. *)
Example parse_local_sample : parse (-300) "2024-03-01T09:05" = Some 1709301900000.
Proof. vm_compute. reflexivity. Qed.

(** A date-only string is midnight UTC whatever the zone. *)
Example parse_date_only_sample : parse (-300) "2024-02-01" = Some 1706745600000.
Proof. vm_compute. reflexivity. Qed.

Example parse_invalid_sample : parse 0 "tomorrow" = None.
Proof. reflexivity. Qed.

(** Seconds without milliseconds, and an offset. *)
Example parse_seconds_sample : parse 330 "2024-03-01T09:10:00Z" = Some 1709284200000.
Proof. vm_compute. reflexivity. Qed.
Example parse_offset_sample :
  parse 0 "2024-03-01T14:40:00+05:30" = Some 1709284200000.
Proof. vm_compute. reflexivity. Qed.
(** [T24:00] is the midnight that ends the day. *)
Example parse_end_of_day_sample :
  parse 0 "2024-02-29T24:00" = parse 0 "2024-03-01T00:00".
Proof. vm_compute. reflexivity. Qed.
Example parse_month_only_sample : parse 0 "2024-03" = parse 0 "2024-03-01".
Proof. vm_compute. reflexivity. Qed.
Example parse_expanded_year_sample : parse 0 "+002024-03-01" = parse 0 "2024-03-01".
Proof. vm_compute. reflexivity. Qed.
Example parse_bad_clock_sample : parse 0 "2024-03-01T24:01" = None.
Proof. vm_compute. reflexivity. Qed.
Example parse_trailing_sample : parse 0 "2024-03-01T09:05Zulu" = None.
Proof. vm_compute. reflexivity. Qed.

Example leap_day : civil_from_days (days_from_civil 2024 2 29) = (2024, 2, 29).
Proof. reflexivity. Qed.

Lemma digit_val_char (n : Z) : digit_val (digit_char n) = Some (n mod 10).
Proof.
  unfold digit_char.
  pose proof (Z.mod_pos_bound n 10 ltac:(lia)) as Hb.
  generalize dependent (n mod 10). intros k Hk.
  assert (Hc : k = 0 \/ k = 1 \/ k = 2 \/ k = 3 \/ k = 4 \/ k = 5 \/ k = 6
               \/ k = 7 \/ k = 8 \/ k = 9) by lia.
  repeat (destruct Hc as [-> | Hc]; [reflexivity |]).
  subst k. reflexivity.
Qed.

Lemma field_pad2 (n : Z) : 0 <= n < 100 -> field (pad2 n) = Some n.
Proof.
  intros Hn. unfold field, pad2. cbn [number_of_digits].
  rewrite !digit_val_char. f_equal. divmod.
Qed.

Lemma field_pad3 (n : Z) : 0 <= n < 1000 -> field (pad3 n) = Some n.
Proof.
  intros Hn. unfold field, pad3. cbn [number_of_digits].
  rewrite !digit_val_char. f_equal. divmod.
Qed.

Lemma field_pad4 (n : Z) : 0 <= n < 10000 -> field (pad4 n) = Some n.
Proof.
  intros Hn. unfold field, pad4. cbn [number_of_digits].
  rewrite !digit_val_char. f_equal. divmod.
Qed.

(** The day number is recovered from the calendar fields. *)
Lemma days_from_civil_from_days (z : Z) :
  let '(y, m, d) := civil_from_days z in
  days_from_civil y m d = z /\ 1 <= m <= 12 /\ 1 <= d <= 31.
Proof.
  unfold civil_from_days.
  set (z0 := z + 719468).
  set (era := z0 / 146097).
  set (doe := z0 mod 146097).
  assert (Hdoe : 0 <= doe < 146097) by (apply Z.mod_pos_bound; lia).
  assert (Hz0 : z0 = 146097 * era + doe) by (apply Z.div_mod; lia).
  set (yoe := (doe - doe / 1460 + doe / 36524 - doe / 146096) / 365).
  assert (Hyoe : 0 <= yoe < 400) by (subst yoe; divmod).
  set (doy := doe - (365 * yoe + yoe / 4 - yoe / 100)).
  assert (Hdoy : 0 <= doy <= 365) by (subst doy yoe; divmod).
  set (mp := (5 * doy + 2) / 153).
  assert (Hmp : 0 <= mp <= 11) by (subst mp; divmod).
  set (d := doy - (153 * mp + 2) / 5 + 1).
  assert (Hd : 1 <= d <= 31) by (subst d mp; divmod).
  assert (Hera : forall y', y' = yoe + era * 400 ->
            y' / 400 = era /\ y' mod 400 = yoe).
  { intros y' ->. split.
    - symmetry. apply (Z.div_unique _ _ _ yoe); lia.
    - symmetry. apply (Z.mod_unique _ _ era); lia. }
  unfold days_from_civil.
  destruct (mp <? 10) eqn:Hlt.
  - apply Z.ltb_lt in Hlt. settle_comparisons.
    destruct (Hera (yoe + era * 400) eq_refl) as [-> ->].
    replace (mp + 3 - 3) with mp by lia.
    subst d doy. repeat split; try lia.
  - apply Z.ltb_ge in Hlt. settle_comparisons.
    destruct (Hera (yoe + era * 400 + 1 - 1) ltac:(lia)) as [-> ->].
    replace (mp - 9 + 9) with mp by lia.
    subst d doy. repeat split; try lia.
Qed.

Lemma time_fields (t : Z) :
  let w := TimeWithinDay t in
  0 <= w / msPerHour <= 23
  /\ 0 <= w mod msPerHour / msPerMinute <= 59
  /\ 0 <= w mod msPerMinute / msPerSecond <= 59
  /\ 0 <= w mod msPerSecond <= 999
  /\ MakeDate (Day t)
       (MakeTime (w / msPerHour) (w mod msPerHour / msPerMinute) 0 0
        + MakeTime 0 0 (w mod msPerMinute / msPerSecond) (w mod msPerSecond)) = t.
Proof.
  unfold TimeWithinDay, Day, MakeDate, MakeTime, msPerDay, msPerHour, msPerMinute,
    msPerSecond.
  cbv zeta. divmod.
Qed.

(** A digit is none of the separators. *)
Lemma expect_digit (sep : ascii) (n : Z) (rest : list ascii) :
  digit_val sep = None ->
  expect (String sep EmptyString) (digit_char n :: rest) = None.
Proof.
  intros Hsep. unfold expect, is_char.
  destruct (Ascii.eqb_spec (digit_char n) sep) as [E | _]; [| reflexivity].
  rewrite <- E, digit_val_char in Hsep. discriminate.
Qed.

Lemma digits2_pad2 (n : Z) (rest : list ascii) :
  0 <= n < 100 -> digits2 (pad2 n ++ rest)%list = Some (n, rest).
Proof.
  intros Hn.
  change (digits2 (pad2 n ++ rest)%list)
    with (match field (pad2 n) with Some v => Some (v, rest) | None => None end).
  now rewrite field_pad2.
Qed.

Lemma digits3_pad3 (n : Z) (rest : list ascii) :
  0 <= n < 1000 -> digits3 (pad3 n ++ rest)%list = Some (n, rest).
Proof.
  intros Hn.
  change (digits3 (pad3 n ++ rest)%list)
    with (match field (pad3 n) with Some v => Some (v, rest) | None => None end).
  now rewrite field_pad3.
Qed.

Lemma digits4_pad4 (n : Z) (rest : list ascii) :
  0 <= n < 10000 -> digits4 (pad4 n ++ rest)%list = Some (n, rest).
Proof.
  intros Hn.
  change (digits4 (pad4 n ++ rest)%list)
    with (match field (pad4 n) with Some v => Some (v, rest) | None => None end).
  now rewrite field_pad4.
Qed.

Lemma read_year_pad4 (y : Z) (rest : list ascii) :
  0 <= y <= 9999 -> read_year (pad4 y ++ rest)%list = Some (y, rest).
Proof.
  intros Hy. unfold read_year.
  change (pad4 y ++ rest)%list
    with (digit_char (y / 1000) :: tl (pad4 y ++ rest))%list at 1 2.
  rewrite !expect_digit by reflexivity.
  now rewrite digits4_pad4 by lia.
Qed.

(** Reading the calendar part [YYYY-MM-DD]. *)
Lemma read_date_fmt (y m d : Z) (rest : list ascii) :
  0 <= y <= 9999 -> 1 <= m <= 12 -> 1 <= d <= 31 ->
  read_date (pad4 y ++ ["-"%char] ++ pad2 m ++ ["-"%char] ++ pad2 d ++ rest)%list
  = Some (days_from_civil y m d, rest).
Proof.
  intros Hy Hm Hd. unfold read_date.
  rewrite read_year_pad4 by lia.
  change (expect "-" (["-"%char] ++ ?r)%list) with (Some r).
  cbv iota beta.
  rewrite digits2_pad2 by lia. settle_comparisons. cbn [andb].
  change (expect "-" (["-"%char] ++ ?r)%list) with (Some r).
  cbv iota beta.
  rewrite digits2_pad2 by lia. settle_comparisons. reflexivity.
Qed.

Lemma read_time_hhmm (h mi : Z) :
  0 <= h <= 23 -> 0 <= mi <= 59 ->
  read_time (pad2 h ++ [":"%char] ++ pad2 mi)%list = Some (MakeTime h mi 0 0, []).
Proof.
  intros Hh Hmi. unfold read_time.
  rewrite digits2_pad2 by lia.
  change (expect ":" ([":"%char] ++ ?r)%list) with (Some r).
  cbv iota beta.
  rewrite <- (app_nil_r (pad2 mi)), digits2_pad2 by lia.
  change (read_seconds []) with (Some ((0, 0), @nil ascii)). cbv iota beta.
  settle_comparisons. reflexivity.
Qed.

Lemma read_time_full (h mi s ms : Z) (rest : list ascii) :
  0 <= h <= 23 -> 0 <= mi <= 59 -> 0 <= s <= 59 -> 0 <= ms <= 999 ->
  read_time (pad2 h ++ [":"%char] ++ pad2 mi ++ [":"%char] ++ pad2 s
             ++ ["."%char] ++ pad3 ms ++ rest)%list
  = Some (MakeTime h mi s ms, rest).
Proof.
  intros Hh Hmi Hs Hms. unfold read_time.
  rewrite digits2_pad2 by lia.
  change (expect ":" ([":"%char] ++ ?r)%list) with (Some r).
  cbv iota beta.
  rewrite digits2_pad2 by lia.
  unfold read_seconds.
  change (expect ":" ([":"%char] ++ ?r)%list) with (Some r).
  cbv iota beta.
  rewrite digits2_pad2 by lia.
  change (expect "." (["."%char] ++ ?r)%list) with (Some r).
  cbv iota beta.
  rewrite digits3_pad3 by lia.
  settle_comparisons. reflexivity.
Qed.

(** Reading back what [toISOString] wrote gives the same instant. *)
Lemma parse_toISOString (tz t : Z) :
  0 <= YearFromTime t <= 9999 -> parse tz (toISOString t) = Some t.
Proof.
  unfold YearFromTime, toISOString. intros Hy.
  pose proof (days_from_civil_from_days (Day t)) as Hc.
  destruct (civil_from_days (Day t)) as [[y m] d]. cbn [fst snd] in Hy.
  destruct Hc as (Hday & Hm & Hd).
  destruct (time_fields t) as (Hh & Hmi & Hs & Hms & Ht).
  settle_comparisons. cbn [andb].
  unfold parse. rewrite list_ascii_of_string_of_list_ascii.
  set (w := TimeWithinDay t) in *.
  rewrite (read_date_fmt y m d) by lia.
  change (expect "T" (["T"%char] ++ ?r)%list) with (Some r).
  cbv iota beta.
  rewrite read_time_full by lia.
  change (read_offset ["Z"%char]) with (Some (Some 0)). cbv iota beta.
  rewrite Hday. apply f_equal. etransitivity; [| exact Ht].
  unfold UTC, MakeDate, MakeTime. lia.
Qed.

Lemma yoe_recovered (yoe doy : Z) :
  0 <= yoe < 400 -> 0 <= doy ->
  (doy <= 364
   \/ (doy = 365 /\ (yoe + 1) mod 4 = 0 /\ ((yoe + 1) mod 100 <> 0 \/ yoe = 399))) ->
  let doe := yoe * 365 + yoe / 4 - yoe / 100 + doy in
  (doe - doe / 1460 + doe / 36524 - doe / 146096) / 365 = yoe /\ 0 <= doe < 146097.
Proof. intros H1 H2 H3 doe. subst doe. divmod. Qed.

Lemma civil_of_era (era yoe doy : Z) :
  0 <= yoe < 400 -> 0 <= doy ->
  (doy <= 364
   \/ (doy = 365 /\ (yoe + 1) mod 4 = 0 /\ ((yoe + 1) mod 100 <> 0 \/ yoe = 399))) ->
  civil_from_days (era * 146097 + (yoe * 365 + yoe / 4 - yoe / 100 + doy) - 719468)
  = let mp := (5 * doy + 2) / 153 in
    let d := doy - (153 * mp + 2) / 5 + 1 in
    let m := if mp <? 10 then mp + 3 else mp - 9 in
    (if m <=? 2 then yoe + era * 400 + 1 else yoe + era * 400, m, d).
Proof.
  intros Hyoe Hdoy Hleap.
  destruct (yoe_recovered yoe doy Hyoe Hdoy Hleap) as (Hy & Hdoe).
  set (doe := yoe * 365 + yoe / 4 - yoe / 100 + doy) in *.
  unfold civil_from_days.
  replace (era * 146097 + doe - 719468 + 719468) with (doe + era * 146097) by lia.
  rewrite Z.div_add, Z.mod_add by lia.
  rewrite (Z.div_small doe), (Z.mod_small doe) by lia.
  rewrite Hy. cbn [Z.add].
  replace (doe - (365 * yoe + yoe / 4 - yoe / 100)) with doy by (subst doe; lia).
  reflexivity.
Qed.

Lemma civil_from_days_from_civil (y m d : Z) :
  1 <= m <= 12 -> 1 <= d <= DaysInMonth y m ->
  civil_from_days (days_from_civil y m d) = (y, m, d).
Proof.
  intros Hm Hd. unfold days_from_civil.
  set (y' := if m <=? 2 then y - 1 else y).
  set (mp := if 2 <? m then m - 3 else m + 9).
  set (doy := (153 * mp + 2) / 5 + d - 1).
  assert (Hyoe : 0 <= y' mod 400 < 400) by (apply Z.mod_pos_bound; lia).
  assert (Hy' : y' = 400 * (y' / 400) + y' mod 400) by (apply Z.div_mod; lia).
  assert (Hfeb : m = 2 -> d <= 28 \/ (d = 29 /\ y mod 4 = 0
                                       /\ (y mod 100 <> 0 \/ y mod 400 = 0))).
  { intros ->. unfold DaysInMonth, isLeapYear in Hd. cbn [Z.eqb Pos.eqb] in Hd.
    destruct (y mod 4 =? 0) eqn:H4; cbn [andb] in Hd; [| lia].
    destruct (y mod 100 =? 0) eqn:H100; cbn [negb orb] in Hd.
    - destruct (y mod 400 =? 0) eqn:H400; [| lia].
      apply Z.eqb_eq in H4, H400. lia.
    - apply Z.eqb_eq in H4. apply Z.eqb_neq in H100. lia. }
  assert (Hdoy : 0 <= doy
                 /\ (doy <= 364
                     \/ (doy = 365 /\ (y' mod 400 + 1) mod 4 = 0
                         /\ ((y' mod 400 + 1) mod 100 <> 0 \/ y' mod 400 = 399)))
                 /\ (5 * doy + 2) / 153 = mp
                 /\ doy - (153 * mp + 2) / 5 + 1 = d).
  { subst doy mp y'. unfold DaysInMonth in Hd.
    each_month m ltac:(literal_comparisons; try specialize (Hfeb eq_refl); divmod). }
  destruct Hdoy as (Hdoy0 & Hleap & Hmp & Hdd).
  rewrite (civil_of_era (y' / 400) (y' mod 400) doy Hyoe Hdoy0 Hleap).
  cbv zeta. rewrite Hmp, Hdd.
  assert (Hmm : (if mp <? 10 then mp + 3 else mp - 9) = m).
  { subst mp. destruct (2 <? m) eqn:H2.
    - apply Z.ltb_lt in H2. settle_comparisons. lia.
    - apply Z.ltb_ge in H2. settle_comparisons. lia. }
  rewrite Hmm. f_equal. f_equal.
  subst y'. destruct (m <=? 2); lia.
Qed.

Lemma DaysInMonth_bound (y m : Z) : 28 <= DaysInMonth y m <= 31.
Proof.
  unfold DaysInMonth.
  destruct (m =? 2); [destruct (isLeapYear y); lia |].
  destruct ((m =? 4) || (m =? 6) || (m =? 9) || (m =? 11)); lia.
Qed.

Lemma parse_isoDate (tz y m d : Z) :
  0 <= y <= 9999 -> 1 <= m <= 12 -> 1 <= d <= 31 ->
  parse tz (isoDate y m d) = Some (MakeDate (days_from_civil y m d) 0).
Proof.
  intros Hy Hm Hd. unfold parse, isoDate.
  rewrite list_ascii_of_string_of_list_ascii.
  rewrite <- (app_nil_r (pad2 d)).
  now rewrite (read_date_fmt y m d []) by lia.
Qed.

Lemma day_before_first (y m : Z) :
  1 <= m <= 12 ->
  let '(py, pm) := previousMonth y m in
  days_from_civil y m 1 - 1 = days_from_civil py pm (DaysInMonth py pm).
Proof.
  intros Hm. unfold previousMonth, days_from_civil, DaysInMonth, isLeapYear.
  each_month m ltac:(
    cbn [Z.eqb Pos.eqb Z.ltb Z.leb Z.compare Pos.compare Pos.compare_cont orb
         Z.sub Z.add Z.opp Z.pos_sub Pos.pred_double Z.pred_double Z.succ_double
         Z.double Pos.succ Pos.add];
    repeat match goal with
      | |- context [?a =? ?b] => destruct (Z.eqb_spec a b)
      end;
    cbn [andb orb negb]; divmod).
Qed.

Lemma days_from_civil_succ (y m d : Z) :
  days_from_civil y m d - 1 = days_from_civil y m (d - 1).
Proof. unfold days_from_civil. lia. Qed.

Lemma local_day (tz days : Z) :
  (0 <= tz < 1440 -> Day (LocalTime tz (MakeDate days 0)) = days)
  /\ (-1440 <= tz < 0 -> Day (LocalTime tz (MakeDate days 0)) = days - 1).
Proof.
  unfold Day, LocalTime, MakeDate, msPerDay, msPerMinute.
  split; intros Htz; divmod.
Qed.

(** The local calendar fields of the instant a date string denotes. *)
Lemma local_fields_of_isoDate (tz y m d : Z) :
  1 <= m <= 12 -> 1 <= d <= DaysInMonth y m -> -1440 <= tz < 1440 ->
  let t := MakeDate (days_from_civil y m d) 0 in
  ((0 <= tz \/ 2 <= d) -> getFullYear tz t = y /\ getMonth tz t = m - 1)
  /\ (tz < 0 -> d = 1 ->
      getFullYear tz t = fst (previousMonth y m)
      /\ getMonth tz t = snd (previousMonth y m) - 1).
Proof.
  intros Hm Hd Htz t. subst t.
  unfold getFullYear, getMonth, YearFromTime, MonthFromTime.
  destruct (local_day tz (days_from_civil y m d)) as (Heast & Hwest).
  split.
  - intros Hok. destruct (Z.le_gt_cases 0 tz) as [Hpos | Hneg].
    + rewrite Heast by lia. now rewrite civil_from_days_from_civil.
    + rewrite Hwest, days_from_civil_succ by lia.
      rewrite civil_from_days_from_civil by lia. now cbn [fst snd].
  - intros Hneg ->. rewrite Hwest by lia.
    pose proof (day_before_first y m Hm) as Hprev.
    pose proof (DaysInMonth_bound (fst (previousMonth y m)) (snd (previousMonth y m)))
      as Hb.
    assert (Hpm : 1 <= snd (previousMonth y m) <= 12)
      by (unfold previousMonth; destruct (Z.eqb_spec m 1); cbn [snd]; lia).
    destruct (previousMonth y m) as [py pm]. cbn [fst snd] in *.
    rewrite Hprev, civil_from_days_from_civil by lia. now cbn [fst snd].
Qed.

End JSDateFacts.

(* ===================================================================== *)
(** * Due detection *)
(* ===================================================================== *)

Lemma Forall2_map_In {A B : Type} (f : A -> B) (P : A -> B -> Prop) (l : list A) :
  (forall a, In a l -> P a (f a)) -> Forall2 P l (map f l).
Proof.
  induction l as [| a l IH]; intros HP; cbn [map]; constructor.
  - apply HP. now left.
  - apply IH. intros a' Ha'. apply HP. now right.
Qed.

Section DueDetection.
Context {number : Type} `{JSNumber number}.
Local Abbreviation Reminder := (Reminder number).

Lemma map_st_checkOne (tz now : Z) (rs acc : list Reminder) :
  map_st (checkOne tz now) acc rs
  = ((acc ++ filter (newlyDue tz now) rs)%list,
     map (fun r => if newlyDue tz now r then markNotified r else r) rs).
Proof.
  revert acc. induction rs as [| r rs IH]; intros acc; cbn [map_st filter map].
  - now rewrite app_nil_r.
  - unfold checkOne at 1. fold (newlyDue tz now r).
    destruct (newlyDue tz now r); rewrite IH; [| reflexivity].
    now rewrite <- app_assoc.
Qed.

Lemma fired_filter (tz now : Z) (rs : list Reminder) :
  fired tz now rs = filter (newlyDue tz now) rs.
Proof. unfold fired, evaluate. now rewrite map_st_checkOne. Qed.

Lemma updated_map (tz now : Z) (rs : list Reminder) :
  updated tz now rs
  = map (fun r => if newlyDue tz now r then markNotified r else r) rs.
Proof. unfold updated, evaluate. now rewrite map_st_checkOne. Qed.

Lemma isDue_spec (tz now : Z) (r : Reminder) :
  isDue tz now r = true <-> exists d, dueInstant tz r = Some d /\ d <= now.
Proof.
  unfold isDue, JSDate.le. destruct (dueInstant tz r) as [d |].
  - rewrite Z.leb_le. split; [intros Hd; now exists d | now intros (? & [= <-] & ?)].
  - split; [discriminate | now intros (? & [=] & _)].
Qed.

Lemma isSnoozed_spec (tz now : Z) (r : Reminder) :
  isSnoozed tz now r = true <-> exists su, snoozeInstant tz r = Some su /\ now < su.
Proof.
  unfold isSnoozed, snoozeInstant.
  destruct (snoozeUntil r) as [| | s].
  1, 2: split; [discriminate | now intros (? & [=] & _)].
  destruct (truthy (str s)); cbn [andb].
  - unfold JSDate.lt. destruct (JSDate.parse tz s) as [su |].
    + rewrite Z.ltb_lt. split; [intros Hd; now exists su | now intros (? & [= <-] & ?)].
    + split; [discriminate | now intros (? & [=] & _)].
  - split; [discriminate | now intros (? & [=] & _)].
Qed.

Lemma not_snoozed_spec (tz now : Z) (r : Reminder) :
  isSnoozed tz now r = false <->
  snoozeInstant tz r = None \/ exists su, snoozeInstant tz r = Some su /\ su <= now.
Proof.
  rewrite <- not_true_iff_false, isSnoozed_spec.
  destruct (snoozeInstant tz r) as [su |].
  - split.
    + intros Hn. right. exists su. split; [reflexivity |].
      destruct (Z.le_gt_cases su now) as [Hle | Hgt]; [exact Hle |].
      exfalso. apply Hn. now exists su.
    + intros [[=] | (su' & [= <-] & Hle)] (su'' & [= <-] & Hlt). lia.
  - split; [now left | now intros _ (? & [=] & _)].
Qed.

Lemma newlyDue_spec (tz now : Z) (r : Reminder) :
  newlyDue tz now r = true <->
  (exists d, dueInstant tz r = Some d /\ d <= now)
  /\ notified r = false
  /\ (snoozeInstant tz r = None
      \/ exists su, snoozeInstant tz r = Some su /\ su <= now).
Proof.
  unfold newlyDue.
  rewrite !andb_true_iff, !negb_true_iff, isDue_spec, not_snoozed_spec.
  tauto.
Qed.

Lemma newlyDue_markNotified (tz now : Z) (r : Reminder) :
  newlyDue tz now (markNotified r) = false.
Proof. unfold newlyDue. cbn [notified markNotified negb]. now rewrite andb_false_r. Qed.

Lemma sameBill_markNotified (r : Reminder) : sameBill r (markNotified r).
Proof. repeat split. Qed.

Lemma parse_empty (tz : Z) : JSDate.parse tz EmptyString = None.
Proof. reflexivity. Qed.

(** The test of the callback, on the strings of a well-formed reminder. *)
Lemma newlyDue_wellFormed (tz now : Z) (r : Reminder) :
  wellFormed tz r = true ->
  newlyDue tz now r = true <->
  (exists d, JSDate.parse tz (dueDate r ++ "T" ++ dueTime r) = Some d /\ d <= now)
  /\ notified r = false
  /\ (truthy (snoozeUntil r) = false
      \/ exists s su, snoozeUntil r = str s /\ JSDate.parse tz s = Some su /\ su <= now).
Proof.
  intros Hwf. rewrite newlyDue_spec.
  change (dueInstant tz r) with (JSDate.parse tz (dueDate r ++ "T" ++ dueTime r)).
  apply and_iff_compat_l, and_iff_compat_l.
  unfold wellFormed in Hwf. apply andb_true_iff in Hwf as [_ Hwf].
  unfold snoozeInstant. destruct (snoozeUntil r) as [| | s].
  1, 2: split; intros _; now left.
  destruct (truthy (str s)) eqn:Ht; cbn [negb orb] in Hwf.
  - destruct (JSDate.parse tz s) as [su |] eqn:Hp; [| discriminate Hwf]. split.
    + intros [[=] | (su' & [= <-] & Hle)]. right. now exists s, su.
    + intros [[=] | (s' & su' & [= <-] & Hp' & Hle)]. right. exists su'.
      split; [congruence | exact Hle].
  - split; intros _; now left.
Qed.

Lemma snoozed_not_newlyDue (tz now su : Z) (r : Reminder) (s : string) :
  snoozeUntil r = str s -> JSDate.parse tz s = Some su -> now < su ->
  newlyDue tz now r = false.
Proof.
  intros Hs Hp Hlt. unfold newlyDue.
  replace (isSnoozed tz now r) with true; [now rewrite andb_false_r |].
  symmetry. apply isSnoozed_spec. exists su. split; [| exact Hlt].
  unfold snoozeInstant. rewrite Hs.
  destruct (truthy (str s)) eqn:Ht; [exact Hp |].
  unfold truthy in Ht. apply negb_false_iff, String.eqb_eq in Ht. subst s.
  rewrite parse_empty in Hp. discriminate Hp.
Qed.

(** C1.  An evaluation at [now] fires the reminders of the list that pass
    the callback's test, in list order.  For a reminder whose strings are
    well formed that test is the claim's: the instant that its [dueDate]
    and [dueTime], joined by [T], denote is at most [now], its [notified]
    flag is false, and its [snoozeUntil] is not set or denotes an instant
    that is at most [now].  Position by position, the updated list holds
    a fired reminder with [notified] set and every other field as it was,
    and any other reminder untouched.  A reminder whose [snoozeUntil]
    denotes an instant after [now] is not fired, whatever its due
    instant. *)
Theorem checkReminders_fires_newly_due (tz now : Z) (rs : list Reminder) :
  fired tz now rs = filter (newlyDue tz now) rs
  /\ (forall r, wellFormed tz r = true ->
        In r (fired tz now rs) <->
        In r rs
        /\ (exists d, JSDate.parse tz (dueDate r ++ "T" ++ dueTime r) = Some d
                      /\ d <= now)
        /\ notified r = false
        /\ (truthy (snoozeUntil r) = false
            \/ exists s su, snoozeUntil r = str s /\ JSDate.parse tz s = Some su
                            /\ su <= now))
  /\ Forall2 (fun r r' =>
        (In r (fired tz now rs) ->
           notified r' = true /\ sameBill r r' /\ snoozeUntil r' = snoozeUntil r)
        /\ (~ In r (fired tz now rs) -> r' = r))
       rs (updated tz now rs)
  /\ (forall r s su, In r rs -> snoozeUntil r = str s ->
        JSDate.parse tz s = Some su -> now < su -> ~ In r (fired tz now rs)).
Proof.
  assert (Hiff : forall r, In r (fired tz now rs) <->
            In r rs /\ newlyDue tz now r = true).
  { intros r. rewrite fired_filter. apply filter_In. }
  split; [apply fired_filter |]. split; [| split].
  - intros r Hwf. rewrite Hiff, (newlyDue_wellFormed tz now r Hwf). reflexivity.
  - rewrite updated_map. apply Forall2_map_In. intros r Hr.
    destruct (newlyDue tz now r) eqn:Hnd; split.
    + intros _. split; [reflexivity |].
      split; [apply sameBill_markNotified | reflexivity].
    + intros Hn. exfalso. apply Hn, Hiff. now split.
    + intros Hf. apply Hiff in Hf as [_ Hf]. congruence.
    + reflexivity.
  - intros r s su Hin Hs Hp Hlt Hf.
    apply Hiff in Hf as [_ Hf].
    rewrite (snoozed_not_newlyDue tz now su r s Hs Hp Hlt) in Hf. discriminate Hf.
Qed.

(** C2.  Evaluating again at the same instant, on the list the first
    evaluation produced, fires nothing. *)
Theorem evaluate_idempotent (tz now : Z) (rs : list Reminder) :
  fired tz now (updated tz now rs) = [].
Proof.
  rewrite fired_filter, updated_map.
  induction rs as [| r rs IH]; [reflexivity |].
  cbn [map filter].
  destruct (newlyDue tz now r) eqn:Hnd.
  - now rewrite newlyDue_markNotified.
  - now rewrite Hnd.
Qed.

Lemma updated_ids (tz now : Z) (rs : list Reminder) :
  map id (updated tz now rs) = map id rs.
Proof.
  rewrite updated_map, map_map. apply map_ext.
  intros r. now destruct (newlyDue tz now r).
Qed.

(** C10.  The updated list has the input's length and the input's ids in
    the input's order; each entry is the input's entry at that position,
    either untouched or with nothing but [notified] flipped from false to
    true. *)
Theorem updated_preserves_reminders (tz now : Z) (rs : list Reminder) :
  List.length (updated tz now rs) = List.length rs
  /\ map id (updated tz now rs) = map id rs
  /\ Forall2 (fun r r' =>
        r' = r
        \/ (notified r = false /\ notified r' = true
            /\ sameBill r r' /\ snoozeUntil r' = snoozeUntil r))
       rs (updated tz now rs).
Proof.
  split; [rewrite updated_map; apply length_map |].
  split; [apply updated_ids |]. rewrite updated_map.
  induction rs as [| r rs IH]; cbn [map]; constructor; [| exact IH].
  destruct (newlyDue tz now r) eqn:Hnd; [right | now left].
  apply newlyDue_spec in Hnd as (_ & Hn & _).
  split; [exact Hn |]. split; [reflexivity |].
  split; [apply sameBill_markNotified | reflexivity].
Qed.

End DueDetection.

(** In New York at 09:05 (14:05 UTC): the rent, due at 09:00, is fired;
    the gas bill, snoozed until 14:10 UTC, the insurance, due at 09:10, and
    the rent already announced are not. *)
Lemma fires_rent_only :
  let rs := [Sample.rent; Sample.gas; Sample.insurance; Sample.paidRent] in
  fired Sample.eastern Sample.t0905_eastern rs = [Sample.rent]
  /\ In Sample.rent (fired Sample.eastern Sample.t0905_eastern rs)
  /\ ~ In Sample.gas (fired Sample.eastern Sample.t0905_eastern rs)
  /\ ~ In Sample.insurance (fired Sample.eastern Sample.t0905_eastern rs)
  /\ ~ In Sample.paidRent (fired Sample.eastern Sample.t0905_eastern rs)
  /\ updated Sample.eastern Sample.t0905_eastern rs
     = [Sample.paidRent; Sample.gas; Sample.insurance; Sample.paidRent].
Proof.
  intros rs.
  destruct (checkReminders_fires_newly_due Sample.eastern Sample.t0905_eastern rs)
    as (Hfilter & Hiff & _ & Hsnooze).
  split; [rewrite Hfilter; vm_compute; reflexivity |].
  split; [| split; [| split; [| split]]].
  - apply (Hiff Sample.rent); [vm_compute; reflexivity |].
    split; [now left |].
    split; [exists Sample.t0900_eastern; split; [vm_compute; reflexivity | discriminate] |].
    split; [reflexivity | now left].
  - apply (Hsnooze Sample.gas "2024-03-01T14:10:00Z" 1709302200000).
    + right. now left.
    + reflexivity.
    + vm_compute. reflexivity.
    + reflexivity.
  - intros Hf. apply (Hiff Sample.insurance) in Hf; [| vm_compute; reflexivity].
    destruct Hf as (_ & (d & Hd & Hle) & _).
    vm_compute in Hd. injection Hd as <-. now apply Hle.
  - intros Hf. apply (Hiff Sample.paidRent) in Hf; [| vm_compute; reflexivity].
    destruct Hf as (_ & _ & Hn & _). discriminate Hn.
  - vm_compute. reflexivity.
Defined.

(* ===================================================================== *)
(** * Successive evaluations *)
(* ===================================================================== *)

Section Ticks.
Context {number : Type} `{JSNumber number}.
Local Abbreviation Reminder := (Reminder number).

Lemma snoozeInstant_falsy (tz : Z) (r : Reminder) :
  truthy (snoozeUntil r) = false -> snoozeInstant tz r = None.
Proof.
  unfold snoozeInstant. destruct (snoozeUntil r) as [| | s]; try reflexivity.
  now intros ->.
Qed.

Lemma newlyDue_pending (tz now d : Z) (r : Reminder) :
  notified r = false -> truthy (snoozeUntil r) = false -> dueInstant tz r = Some d ->
  newlyDue tz now r = (d <=? now).
Proof.
  intros Hn Hs Hd. apply eq_true_iff_eq.
  rewrite newlyDue_spec, Z.leb_le, Hd, (snoozeInstant_falsy tz r Hs). split.
  - now intros ((d' & [= <-] & Hle) & _).
  - intros Hle. split; [now exists d |]. split; [exact Hn | now left].
Qed.





End Ticks.


(** A reminder that has been announced is fired by no later evaluation. *)
Example announced_reminder_not_fired_again :
  firedPerTick 0 [Sample.t0905; Sample.t0910] [Sample.paidRent] = [[]; []].
Proof. vm_compute. reflexivity. Qed.

(* ===================================================================== *)
(** * Snooze, edit, routing *)
(* ===================================================================== *)

Section Handlers.
Context {number : Type} `{JSNumber number}.
Local Abbreviation Reminder := (Reminder number).
Local Abbreviation State := (State number).

Lemma toISOString_truthy (t : Z) : truthy (str (JSDate.toISOString t)) = true.
Proof.
  unfold JSDate.toISOString.
  destruct (JSDate.civil_from_days (JSDate.Day t)) as [[y m] d].
  destruct ((0 <=? y) && (y <=? 9999)); reflexivity.
Qed.

Lemma In_filter_other_id (id0 : string) (n : Reminder) (l : list Reminder) :
  In n (filter (fun n => negb (String.eqb (id n) id0)) l) <-> In n l /\ id n <> id0.
Proof. now rewrite filter_In, negb_true_iff, String.eqb_neq. Qed.

(** C4.  Snoozing [id0] at [now] gives every reminder with that id the
    snooze string of [now] plus ten minutes (which reads back as that
    instant) and [notified] false, keeps its other fields, keeps every
    other reminder as it was, and leaves in the toast list exactly the
    entries whose id is not [id0]. *)
Theorem snooze_sets_window (tz now : Z) (id0 : string) (st : State) :
  Forall2 (fun r r' =>
      (id r = id0 ->
         notified r' = false
         /\ snoozeUntil r' = str (JSDate.toISOString (now + 600000))
         /\ sameBill r r'
         /\ (0 <= JSDate.YearFromTime (now + 600000) <= 9999 ->
             snoozeInstant tz r' = Some (now + 600000)))
      /\ (id r <> id0 -> r' = r))
    (reminders st) (reminders (handleSnoozeReminder now id0 st))
  /\ (forall n, In n (activeNotifications (handleSnoozeReminder now id0 st)) <->
               In n (activeNotifications st) /\ id n <> id0).
Proof.
  split.
  - cbn [handleSnoozeReminder reminders]. apply Forall2_map_In. intros r _.
    unfold snoozeOne. destruct (String.eqb (id r) id0) eqn:He.
    + apply String.eqb_eq in He. split; [intros _ | congruence].
      cbn [notified snoozeUntil]. split; [reflexivity |]. split; [reflexivity |].
      split; [repeat split |].
      intros Hy. unfold snoozeInstant. cbn [snoozeUntil].
      change (10 * 60 * 1000) with 600000.
      rewrite toISOString_truthy. now apply JSDateFacts.parse_toISOString.
    + apply String.eqb_neq in He. split; [congruence | reflexivity].
  - intros n. cbn [handleSnoozeReminder activeNotifications].
    apply In_filter_other_id.
Qed.

(** What [handleSubmit] builds from [e], the reminder the editor was
    opened on: the id of [e]; when the submitted due date or due time
    differs from that of [e] and the submitted due instant is after [now],
    [notified] false and [snoozeUntil] null; otherwise the [notified] and
    [snoozeUntil] of [e]. *)
Lemma edit_reconciles_status (tz now : Z) (e : Reminder) (f : ReminderForm) :
  let r := handleSubmit tz now (Some e) f in
  let rescheduled :=
    (dueDate e <> form_dueDate f \/ dueTime e <> form_dueTime f)
    /\ exists d, JSDate.parse tz (form_dueDate f ++ "T" ++ form_dueTime f) = Some d
                 /\ now < d in
  id r = id e
  /\ (rescheduled -> notified r = false /\ snoozeUntil r = null)
  /\ (~ rescheduled -> notified r = notified e /\ snoozeUntil r = snoozeUntil e).
Proof.
  cbv zeta.
  assert (Hr : shouldResetStatus tz now (Some e) f = true <->
               (dueDate e <> form_dueDate f \/ dueTime e <> form_dueTime f)
               /\ exists d, JSDate.parse tz (form_dueDate f ++ "T" ++ form_dueTime f)
                            = Some d /\ now < d).
  { unfold shouldResetStatus, JSDate.gt, JSDate.lt.
    rewrite andb_true_iff, orb_true_iff, !negb_true_iff, !String.eqb_neq.
    destruct (JSDate.parse tz (form_dueDate f ++ "T" ++ form_dueTime f)) as [d |].
    - rewrite Z.ltb_lt. split.
      + intros (Hd & Hlt). split; [exact Hd | now exists d].
      + intros (Hd & d' & [= <-] & Hlt). now split.
    - split; [now intros (_ & [=]) | now intros (_ & ? & [=] & _)]. }
  unfold handleSubmit. cbn [id notified snoozeUntil].
  destruct (shouldResetStatus tz now (Some e) f).
  - split; [reflexivity |]. split; [now intros _ |].
    intros Hn. exfalso. apply Hn, Hr. reflexivity.
  - split; [reflexivity |]. split; [| now intros _].
    intros Hres. apply Hr in Hres. discriminate Hres.
Qed.

Lemma osNotifications_sound (h : Host) (sound : NotificationSound) :
  osNotifications (playNotificationSound h sound) = [].
Proof.
  unfold playNotificationSound.
  destruct (audioContext h), sound, (canVibrate h); reflexivity.
Qed.

Lemma osNotifications_app (a b : list Effect) :
  osNotifications (a ++ b) = (osNotifications a ++ osNotifications b)%list.
Proof. apply filter_app. Qed.

Lemma filter_hasId_replaced (r : Reminder) (l : list Reminder) :
  filter (hasId (id r))
         (filter (fun n => negb (String.eqb (id n) (id r))) l ++ [r])%list = [r].
Proof.
  rewrite filter_app. cbn [filter]. unfold hasId at 2. rewrite String.eqb_refl.
  induction l as [| n l IH]; [reflexivity |]. cbn [filter].
  destruct (String.eqb (id n) (id r)) eqn:He; cbn [negb]; [exact IH |].
  cbn [filter]. unfold hasId at 1. rewrite He. exact IH.
Qed.

Lemma NoDup_ids_replaced (r : Reminder) (l : list Reminder) :
  NoDup (map id l) ->
  NoDup (map id (filter (fun n => negb (String.eqb (id n) (id r))) l ++ [r])%list).
Proof.
  intros Hnd. rewrite map_app. cbn [map].
  induction l as [| n l IH]; cbn [filter map app]; [repeat constructor; intros [] |].
  inversion Hnd as [| ? ? Hnotin Hnd']; subst.
  destruct (String.eqb (id n) (id r)) eqn:He; cbn [negb]; [now apply IH |].
  cbn [map app]. constructor; [| now apply IH].
  rewrite in_app_iff. intros [Hin | [Heq | []]].
  - apply Hnotin. apply in_map_iff in Hin as (n' & <- & Hn').
    apply filter_In in Hn' as [Hn' _]. now apply in_map.
  - apply String.eqb_neq in He. congruence.
Qed.

(** C7.  On a visible page a fired reminder is appended to the toast
    list after removing the entries with its id, so it is the only entry
    with that id and ids stay distinct; the store is untouched and no OS
    notification is issued.  On a hidden page with permission granted
    exactly one OS notification is issued, whose body is the bill name,
    [" for $"], the amount to two decimals and [" is due!"], and which is
    silent unless the sound is [default]; the state is untouched. *)
Theorem route_by_visibility (h : Host) (st : State) (eff : list Effect) (r : Reminder) :
  (hidden h = false ->
     activeNotifications (fst (route h (st, eff) r))
     = (filter (fun n => negb (String.eqb (id n) (id r))) (activeNotifications st)
        ++ [r])%list
     /\ filter (hasId (id r)) (activeNotifications (fst (route h (st, eff) r))) = [r]
     /\ (NoDup (map id (activeNotifications st)) ->
         NoDup (map id (activeNotifications (fst (route h (st, eff) r)))))
     /\ reminders (fst (route h (st, eff) r)) = reminders st
     /\ osNotifications (snd (route h (st, eff) r)) = osNotifications eff)
  /\ (hidden h = true -> permission h = granted ->
     fst (route h (st, eff) r) = st
     /\ osNotifications (snd (route h (st, eff) r))
        = (osNotifications eff
           ++ [ShowNotification "Bill Reminder"
                 (billName r ++ " for $" ++ toFixed2 (amount r) ++ " is due!")
                 (match notificationSound r with default => false | _ => true end)])%list).
Proof.
  split.
  - intros Hv. unfold route. rewrite Hv. cbn [fst snd activeNotifications reminders].
    split; [reflexivity |]. split; [apply filter_hasId_replaced |].
    split; [apply NoDup_ids_replaced |]. split; [reflexivity |].
    now rewrite osNotifications_app, osNotifications_sound, app_nil_r.
  - intros Hh Hp. unfold route. rewrite Hh, Hp. cbn [permission_granted fst snd].
    split; [reflexivity |].
    rewrite !osNotifications_app, osNotifications_sound, app_nil_r.
    cbn [osNotifications filter isOSNotification]. unfold notificationBody.
    now destruct (notificationSound r).
Qed.

End Handlers.

Lemma snooze_rent_at_0905 :
  exists r',
    reminders (handleSnoozeReminder Sample.t0905 (id Sample.paidRent)
                 {| reminders := [Sample.paidRent];
                    activeNotifications := [Sample.paidRent] |}) = [r']
    /\ notified r' = false
    /\ snoozeInstant 0 r' = Some (Sample.t0905 + 600000)
    /\ activeNotifications
         (handleSnoozeReminder Sample.t0905 (id Sample.paidRent)
            {| reminders := [Sample.paidRent];
               activeNotifications := [Sample.paidRent] |}) = [].
Proof.
  destruct (snooze_sets_window 0 Sample.t0905 (id Sample.paidRent)
              {| reminders := [Sample.paidRent];
                 activeNotifications := [Sample.paidRent] |}) as (Hrs & _).
  cbn [handleSnoozeReminder reminders map] in Hrs.
  apply Forall2_cons_iff in Hrs as [(Hsame & _) _].
  destruct (Hsame eq_refl) as (Hn & _ & _ & Hinst).
  exists (snoozeOne Sample.t0905 (id Sample.paidRent) Sample.paidRent).
  split; [reflexivity |]. split; [exact Hn |].
  split; [| reflexivity].
  apply Hinst. vm_compute. split; discriminate.
Defined.

Lemma reschedule_paid_rent :
  notified (handleSubmit 0 Sample.t0905 (Some Sample.paidRent) Sample.rescheduled) = false
  /\ snoozeUntil (handleSubmit 0 Sample.t0905 (Some Sample.paidRent) Sample.rescheduled)
     = null.
Proof.
  apply (edit_reconciles_status 0 Sample.t0905 Sample.paidRent Sample.rescheduled).
  split; [left; discriminate |].
  exists 1711962000000. split; [vm_compute; reflexivity | reflexivity].
Defined.

Lemma route_rent_both_ways :
  filter (hasId (id Sample.rent))
    (activeNotifications
       (fst (route Sample.foreground
               ({| reminders := [Sample.paidRent];
                   activeNotifications := [Sample.rent] |}, []) Sample.rent)))
  = [Sample.rent]
  /\ osNotifications
       (snd (route Sample.background
               ({| reminders := [Sample.paidRent]; activeNotifications := [] |}, [])
               Sample.power))
     = [ShowNotification "Bill Reminder" "Electricity for $75.00 is due!" true].
Proof.
  split.
  - destruct (route_by_visibility Sample.foreground
                {| reminders := [Sample.paidRent];
                   activeNotifications := [Sample.rent] |} [] Sample.rent)
      as (Hfg & _).
    destruct (Hfg eq_refl) as (_ & Honly & _). exact Honly.
  - destruct (route_by_visibility Sample.background
                {| reminders := [Sample.paidRent]; activeNotifications := [] |} []
                Sample.power) as (_ & Hbg).
    destruct (Hbg eq_refl eq_refl) as (_ & Hos). exact Hos.
Defined.

(* ===================================================================== *)
(** * Audio cue *)
(* ===================================================================== *)

Lemma playNotificationSound_cues (h : Host) :
  audioContext h = true ->
  playNotificationSound h beep = [PlayTone 880 (1 # 5)]
  /\ playNotificationSound h chime
     = [PlayTone (2093 # 2) (3 # 20); PlayToneAfter 150 (13969 # 10) (3 # 20)]
  /\ playNotificationSound h vibrate
     = (if canVibrate h then [VibrateDevice [200; 100; 200]] else [])
  /\ playNotificationSound h none = []
  /\ playNotificationSound h default = [].
Proof. unfold playNotificationSound. now intros ->. Qed.

(** C6 at the failing input.  A pending reminder whose sound is [default]
    is fired by a tick on a visible page with audio and vibration
    available, and the tick has no effect on the outside world at all: no
    tone, no vibration, no OS notification. *)
Theorem default_sound_plays_nothing_in_foreground :
  notificationSound Sample.rent = default
  /\ fired (tz Sample.foreground) Sample.t0905 [Sample.rent] = [Sample.rent]
  /\ checkReminders Sample.foreground Sample.t0905
       {| reminders := [Sample.rent]; activeNotifications := [] |}
     = ({| reminders := [markNotified Sample.rent];
           activeNotifications := [Sample.rent] |}, []).
Proof. split; [reflexivity |]. split; vm_compute; reflexivity. Qed.

(* ===================================================================== *)
(** * Month aggregation *)
(* ===================================================================== *)

Section Aggregation.
Context {number : Type} `{JSNumber number}.
Local Abbreviation Transaction := (Tx.Transaction number).

Lemma filteredTransactions_In (tz viewDate : Z) (ts : list Transaction) (t : Transaction) :
  In t (filteredTransactions tz viewDate ts) <->
  In t ts
  /\ exists d, JSDate.parse tz (Tx.date t) = Some d
       /\ JSDate.getFullYear tz d = JSDate.getFullYear tz viewDate
       /\ JSDate.getMonth tz d = JSDate.getMonth tz viewDate.
Proof.
  unfold filteredTransactions, sameMonth. rewrite filter_In.
  destruct (JSDate.parse tz (Tx.date t)) as [d |].
  - rewrite andb_true_iff, !Z.eqb_eq. split.
    + intros (Hin & Hy & Hm). split; [exact Hin | now exists d].
    + intros (Hin & d' & [= <-] & Hy & Hm). now split.
  - split; [now intros (_ & [=]) | now intros (_ & ? & [=] & _)].
Qed.

Lemma totals_are_accumulated_sums (filtered : list Transaction) :
  totalIncome filtered
  = fold_left add (map Tx.amount (filter isIncome filtered)) zero
  /\ totalExpenses filtered
     = fold_left add (map Tx.amount (filter isExpense filtered)) zero
  /\ balance filtered = sub (totalIncome filtered) (totalExpenses filtered).
Proof.
  assert (Hfold : forall (l : list Transaction) (acc : number),
            fold_left (fun sum t => add sum (Tx.amount t)) l acc
            = fold_left add (map Tx.amount l) acc).
  { induction l as [| t l IH]; intros acc; [reflexivity | apply IH]. }
  split; [apply Hfold |]. split; [apply Hfold | reflexivity].
Qed.

End Aggregation.

Lemma summarize_sample :
  totalIncome [Sample.salary; Sample.groceries] = 100
  /\ totalExpenses [Sample.salary; Sample.groceries] = 40
  /\ balance [Sample.salary; Sample.groceries] = 60.
Proof. repeat split. Qed.

(** In a UTC browser the month filter files both sample transactions
    under the month their date names. *)
Lemma month_filter_in_UTC :
  filteredTransactions 0 (Sample.midJanuary 0) [Sample.salary; Sample.groceries]
  = [Sample.salary]
  /\ filteredTransactions 0 (Sample.midFebruary 0) [Sample.salary; Sample.groceries]
     = [Sample.groceries].
Proof. split; vm_compute; reflexivity. Qed.

(** The specification's month-filter example, in every time zone from
    UTC-12 to UTC+14: a transaction dated 2024-01-31 is shown when January
    2024 is viewed and left out when February 2024 is viewed. *)
Lemma january_31_is_in_january (tz : Z) :
  -720 <= tz <= 840 ->
  JSDate.parse tz "2024-01-31" = Some 1706659200000
  /\ JSDate.getFullYear tz 1706659200000 = 2024
  /\ JSDate.getMonth tz 1706659200000 = 0.
Proof.
  intros Htz. split; [reflexivity |].
  unfold JSDate.getFullYear, JSDate.getMonth, JSDate.YearFromTime, JSDate.MonthFromTime,
    JSDate.LocalTime, JSDate.Day, JSDate.msPerMinute, JSDate.msPerDay.
  assert (Hday : (1706659200000 + tz * 60000) / 86400000 = 19752
                 \/ (1706659200000 + tz * 60000) / 86400000 = 19753)
    by (Z.div_mod_to_equations; lia).
  destruct Hday as [-> | ->]; split; reflexivity.
Qed.

Lemma january_31_month_filter (tz viewDate : Z) :
  -720 <= tz <= 840 ->
  JSDate.getFullYear tz viewDate = 2024 ->
  (JSDate.getMonth tz viewDate = 0 ->
     filteredTransactions tz viewDate [Sample.salary] = [Sample.salary])
  /\ (JSDate.getMonth tz viewDate = 1 ->
     filteredTransactions tz viewDate [Sample.salary] = []).
Proof.
  intros Htz Hy. destruct (january_31_is_in_january tz Htz) as (Hp & Hyear & Hmonth).
  unfold filteredTransactions, sameMonth. cbn [filter Tx.date Sample.salary].
  rewrite Hp, Hyear, Hmonth, Hy.
  split; intros ->; reflexivity.
Qed.

(** X22.  Where the month filter is exact and where it is not.  For a valid
    date [y]-[m]-[d] written as a date string: at or east of UTC, or for
    any day but the first of the month, the item is shown exactly when the
    viewed year and month are [y] and [m]; west of UTC the first of a
    month is shown exactly when the month before is viewed. *)
Lemma sameMonth_of_isoDate (tz viewDate y m d : Z) :
  0 <= y <= 9999 -> 1 <= m <= 12 -> 1 <= d <= JSDate.DaysInMonth y m ->
  -1440 <= tz < 1440 ->
  ((0 <= tz \/ 2 <= d) ->
     sameMonth tz viewDate (JSDate.isoDate y m d) = true <->
     JSDate.getFullYear tz viewDate = y /\ JSDate.getMonth tz viewDate = m - 1)
  /\ (tz < 0 -> d = 1 ->
     sameMonth tz viewDate (JSDate.isoDate y m d) = true <->
     JSDate.getFullYear tz viewDate = fst (JSDate.previousMonth y m)
     /\ JSDate.getMonth tz viewDate = snd (JSDate.previousMonth y m) - 1).
Proof.
  intros Hy Hm Hd Htz.
  pose proof (JSDateFacts.DaysInMonth_bound y m) as Hb.
  destruct (JSDateFacts.local_fields_of_isoDate tz y m d Hm Hd Htz) as (Hexact & Hwest).
  unfold sameMonth. rewrite JSDateFacts.parse_isoDate by lia.
  rewrite andb_true_iff, !Z.eqb_eq.
  split.
  - intros Hok. destruct (Hexact Hok) as (-> & ->). split; intros (? & ?); now split.
  - intros Hneg H1. destruct (Hwest Hneg H1) as (-> & ->).
    split; intros (? & ?); now split.
Qed.

Example date_input_value : JSDate.isoDate 2024 2 1 = Tx.date Sample.groceries.
Proof. reflexivity. Qed.

(** A reminder due on 1 February at 09:00 local time, five hours west of
    UTC: its due instant lies in February, and the month filter lists it
    under January. *)
Example reminder_due_on_the_first :
  let r := {| id := "1"; billName := "Water"; amount := 30;
              dueDate := "2024-02-01"; dueTime := "09:00"; notified := false;
              notificationSound := none; snoozeUntil := null |} in
  option_map (JSDate.getMonth Sample.eastern) (dueInstant Sample.eastern r) = Some 1
  /\ filteredReminders Sample.eastern (Sample.midFebruary Sample.eastern) [r] = []
  /\ filteredReminders Sample.eastern (Sample.midJanuary Sample.eastern) [r] = [r].
Proof. repeat split; vm_compute; reflexivity. Qed.

(** C8 at the failing input.  Five hours west of UTC, a transaction dated
    2024-02-01 is left out when February 2024 is viewed and shown when
    January 2024 is viewed: its date string is read as midnight UTC, which
    is still 31 January in local time. *)
Theorem first_of_month_filed_under_previous_month :
  Tx.date Sample.groceries = "2024-02-01"
  /\ JSDate.getFullYear Sample.eastern (Sample.midFebruary Sample.eastern) = 2024
  /\ JSDate.getMonth Sample.eastern (Sample.midFebruary Sample.eastern) = 1
  /\ filteredTransactions Sample.eastern (Sample.midFebruary Sample.eastern)
       [Sample.groceries] = []
  /\ JSDate.getFullYear Sample.eastern (Sample.midJanuary Sample.eastern) = 2024
  /\ JSDate.getMonth Sample.eastern (Sample.midJanuary Sample.eastern) = 0
  /\ filteredTransactions Sample.eastern (Sample.midJanuary Sample.eastern)
       [Sample.groceries] = [Sample.groceries].
Proof. repeat split; vm_compute; reflexivity. Qed.

(* ===================================================================== *)
(** * Toasts and the store *)
(* ===================================================================== *)

(** Every operation other than a deletion keeps the toasts within the
    store. *)
Section ToastInvariant.
Context {number : Type} `{JSNumber number}.
Local Abbreviation Reminder := (Reminder number).
Local Abbreviation State := (State number).

Lemma activeWithinStore_spec (st : State) :
  activeWithinStore st = true <-> withinStore st.
Proof.
  unfold activeWithinStore, withinStore. rewrite forallb_forall.
  split; intros Hall n Hn; specialize (Hall n Hn).
  - apply existsb_exists in Hall as (r & Hr & He).
    apply String.eqb_eq in He. rewrite <- He. now apply in_map.
  - apply in_map_iff in Hall as (r & He & Hr).
    apply existsb_exists. exists r. split; [exact Hr |]. now apply String.eqb_eq.
Qed.

Lemma route_fold_state (h : Host) (due : list Reminder) :
  forall (st : State) (eff : list Effect),
    reminders (fst (fold_left (route h) due (st, eff))) = reminders st
    /\ forall n, In n (activeNotifications (fst (fold_left (route h) due (st, eff)))) ->
         In n (activeNotifications st) \/ In n due.
Proof.
  induction due as [| r due IH]; intros st eff; cbn [fold_left].
  - split; [reflexivity | now left].
  - destruct (route h (st, eff) r) as [st1 eff1] eqn:Hroute.
    destruct (IH st1 eff1) as (Hrs & Hact).
    assert (Hst1 : reminders st1 = reminders st
                   /\ forall n, In n (activeNotifications st1) ->
                        In n (activeNotifications st) \/ n = r).
    { unfold route in Hroute.
      destruct (hidden h); [destruct (permission_granted (permission h)) |];
        injection Hroute as <- _; cbn [reminders activeNotifications];
        (split; [reflexivity |]); intros n Hn; try (now left).
      apply in_app_iff in Hn as [Hn | [<- | []]]; [left | now right].
      now apply filter_In in Hn as [Hn _]. }
    destruct Hst1 as (Hrs1 & Hact1). split; [congruence |].
    intros n Hn. destruct (Hact n Hn) as [Hn1 | Hd]; [| right; now right].
    destruct (Hact1 n Hn1) as [Hn0 | ->]; [now left | right; now left].
Qed.

Lemma checkReminders_withinStore (h : Host) (now : Z) (st : State) :
  withinStore st -> withinStore (fst (checkReminders h now st)).
Proof.
  intros Hinv. unfold checkReminders.
  pose proof (fired_filter (tz h) now (reminders st)) as Hf.
  pose proof (updated_ids (tz h) now (reminders st)) as Hu.
  unfold fired, updated in Hf, Hu.
  destruct (evaluate (tz h) now (reminders st)) as [due upd]. cbn [fst snd] in Hf, Hu.
  destruct (0 <? Z.of_nat (List.length due)); [| exact Hinv].
  destruct (route_fold_state h due
              {| reminders := upd; activeNotifications := activeNotifications st |} [])
    as (Hrs & Hact).
  intros n Hn. rewrite Hrs. cbn [reminders]. rewrite Hu.
  destruct (Hact n Hn) as [Hold | Hdue]; [now apply Hinv |].
  rewrite Hf in Hdue. apply filter_In in Hdue as [Hin _]. now apply in_map.
Qed.

Lemma updated_when_nothing_fired (tz now : Z) (rs : list Reminder) :
  fired tz now rs = [] -> updated tz now rs = rs.
Proof.
  rewrite fired_filter, updated_map.
  induction rs as [| r rs IH]; [reflexivity |]. cbn [filter map].
  destruct (newlyDue tz now r); [discriminate |].
  intros Hnil. now rewrite IH.
Qed.

(** The store after a tick is the updated list of the evaluation. *)
Lemma checkReminders_store (h : Host) (now : Z) (st : State) :
  reminders (fst (checkReminders h now st)) = updated (tz h) now (reminders st).
Proof.
  unfold checkReminders.
  pose proof (updated_when_nothing_fired (tz h) now (reminders st)) as Hnil.
  unfold fired, updated in *.
  destruct (evaluate (tz h) now (reminders st)) as [due upd]. cbn [fst snd] in *.
  destruct due as [| r due].
  - cbn [List.length Z.of_nat Z.ltb Z.compare fst]. symmetry. now apply Hnil.
  - replace (0 <? Z.of_nat (List.length (r :: due))) with true
      by (symmetry; apply Z.ltb_lt; cbn [List.length]; lia).
    now destruct (route_fold_state h (r :: due)
                    {| reminders := upd; activeNotifications := activeNotifications st |}
                    []) as (-> & _).
Qed.

Lemma route_fold_os_notifications (h : Host) (due : list Reminder) :
  forall (st : State) (eff : list Effect),
    osNotifications (snd (fold_left (route h) due (st, eff)))
    = (osNotifications eff
       ++ if hidden h && permission_granted (permission h)
          then map (fun r => ShowNotification "Bill Reminder" (notificationBody r)
                               (negb (sound_eqb (notificationSound r) default))) due
          else [])%list.
Proof.
  assert (Hsound : forall sound, osNotifications (playNotificationSound h sound) = []).
  { intros sound. unfold playNotificationSound.
    destruct (audioContext h), sound, (canVibrate h); reflexivity. }
  induction due as [| r due IH]; intros st eff; cbn [fold_left].
  - cbn [snd map]. destruct (hidden h && permission_granted (permission h));
      now rewrite app_nil_r.
  - destruct (route h (st, eff) r) as [st1 eff1] eqn:Hroute. rewrite IH.
    unfold route in Hroute.
    destruct (hidden h); [destruct (permission_granted (permission h)) |];
      injection Hroute as _ <-; cbn [andb map];
      unfold osNotifications; rewrite ?filter_app; fold (osNotifications eff);
      fold (osNotifications (playNotificationSound h (notificationSound r)));
      rewrite Hsound, ?app_nil_r; [| reflexivity | reflexivity].
    cbn [filter isOSNotification]. now rewrite <- app_assoc.
Qed.

(** X21.  The OS notifications a tick issues: one per fired reminder,
    in firing order, on a hidden page with permission granted; none
    otherwise. *)
Lemma checkReminders_os_notifications (h : Host) (now : Z) (st : State) :
  osNotifications (snd (checkReminders h now st))
  = if hidden h && permission_granted (permission h)
    then map (fun r => ShowNotification "Bill Reminder" (notificationBody r)
                         (negb (sound_eqb (notificationSound r) default)))
             (fired (tz h) now (reminders st))
    else [].
Proof.
  unfold checkReminders, fired.
  destruct (evaluate (tz h) now (reminders st)) as [due upd]. cbn [fst].
  destruct due as [| r due].
  - cbn. now destruct (hidden h && permission_granted (permission h)).
  - replace (0 <? Z.of_nat (List.length (r :: due))) with true
      by (symmetry; apply Z.ltb_lt; cbn [List.length]; lia).
    now rewrite route_fold_os_notifications.
Qed.

(** Saving an edit of a stored reminder keeps the ids of the store. *)
Lemma handleSaveReminder_edit_ids (reminder : Reminder) (st : State) :
  In (id reminder) (map id (reminders st)) ->
  map id (reminders (handleSaveReminder reminder st)) = map id (reminders st).
Proof.
  intros Hin. cbn [handleSaveReminder reminders].
  replace (existsb (fun r => String.eqb (id r) (id reminder)) (reminders st)) with true.
  - rewrite map_map. apply map_ext. intros r.
    destruct (String.eqb (id r) (id reminder)) eqn:He; [| reflexivity].
    apply String.eqb_eq in He. now symmetry.
  - symmetry. apply existsb_exists. apply in_map_iff in Hin as (r & He & Hr).
    exists r. split; [exact Hr | now apply String.eqb_eq].
Qed.

Lemma handleSaveReminder_ids (reminder : Reminder) (st : State) (x : string) :
  In x (map id (reminders st)) ->
  In x (map id (reminders (handleSaveReminder reminder st))).
Proof.
  intros Hx. cbn [handleSaveReminder reminders].
  destruct (existsb _ (reminders st)).
  - apply in_map_iff in Hx as (r & <- & Hr). apply in_map_iff.
    exists (if String.eqb (id r) (id reminder) then reminder else r). split.
    + destruct (String.eqb (id r) (id reminder)) eqn:He; [| reflexivity].
      apply String.eqb_eq in He. now symmetry.
    + now apply (in_map (fun r => if String.eqb (id r) (id reminder) then reminder else r)).
  - rewrite map_app. apply in_app_iff. now left.
Qed.

Lemma snoozeOne_id (now : Z) (id0 : string) (r : Reminder) :
  id (snoozeOne now id0 r) = id r.
Proof. unfold snoozeOne. now destruct (String.eqb (id r) id0). Qed.

Lemma step_keeps_toasts_within_store (st : State) (op : Op) :
  (forall id0, op <> DeleteReminder id0) ->
  withinStore st -> withinStore (step st op).
Proof.
  intros Hop Hinv. destruct op as [h now | tz now e f | id0 | now id0 | id0]; cbn [step].
  - now apply checkReminders_withinStore.
  - intros n Hn. apply handleSaveReminder_ids. now apply Hinv.
  - now destruct (Hop id0).
  - intros n Hn. cbn [handleSnoozeReminder activeNotifications reminders] in *.
    apply filter_In in Hn as [Hn _]. rewrite map_map.
    rewrite (map_ext _ id (snoozeOne_id now id0)). now apply Hinv.
  - intros n Hn. cbn [handleDismissNotification activeNotifications reminders] in *.
    apply filter_In in Hn as [Hn _]. now apply Hinv.
Qed.

(** X20.  Every sequence of ticks, saves, snoozes and dismissals (no
    deletion) keeps the id of every toast among the ids of the store. *)
Lemma run_keeps_toasts_within_store (ops : list Op) :
  Forall (fun op => forall id0, op <> DeleteReminder id0) ops ->
  forall st, withinStore st -> withinStore (run st ops).
Proof.
  unfold run. induction 1 as [| op ops Hop _ IH]; intros st Hinv; cbn [fold_left].
  - exact Hinv.
  - apply IH. now apply step_keeps_toasts_within_store.
Qed.

End ToastInvariant.

(** C9 at the failing input.  A tick on a visible page raises a toast
    for the due reminder; deleting that reminder empties the store and
    leaves the toast in place. *)
Theorem deleted_reminder_keeps_its_toast :
  run {| reminders := [Sample.rent]; activeNotifications := [] |}
      [Tick Sample.foreground Sample.t0905; DeleteReminder (id Sample.rent)]
  = {| reminders := []; activeNotifications := [Sample.rent] |}
  /\ activeWithinStore
       (run {| reminders := [Sample.rent]; activeNotifications := [] |}
            [Tick Sample.foreground Sample.t0905; DeleteReminder (id Sample.rent)])
     = false.
Proof. split; vm_compute; reflexivity. Qed.

(* ===================================================================== *)
(** * Scenarios *)
(* ===================================================================== *)

(** The specification's scenarios, in a UTC browser. *)
Example fires_once_then_not_again :
  fired 0 Sample.t0905 [Sample.rent] = [Sample.rent]
  /\ fired 0 Sample.t0910 (updated 0 Sample.t0905 [Sample.rent]) = [].
Proof. split; vm_compute; reflexivity. Qed.

(** C5 fails at these inputs.  The editor is opened on the pending rent;
    the 09:05 tick fires the reminder, so that the stored reminder has
    [notified] true; the form is submitted at 09:10 with the due date and
    time of the stored reminder.  The saved reminder has the [notified]
    false of the reminder the editor was opened on, not the stored value,
    and the 09:11 tick fires it a second time.  With the editor opened on
    the announced rent and its toast snoozed at 09:05, the same submission
    stores [notified] true and [snoozeUntil] null over the stored snooze,
    and no later evaluation fires the reminder. *)
Theorem unchanged_edit_overwrites_status :
  (reminderToEdit EditDuringTick.ticked = Some Sample.rent
   /\ fired 0 Sample.t0905 (reminders (appState EditDuringTick.opened)) = [Sample.rent]
   /\ persisted EditDuringTick.ticked = Some Sample.paidRent
   /\ dueDate Sample.paidRent = form_dueDate Sample.unchanged
   /\ dueTime Sample.paidRent = form_dueTime Sample.unchanged
   /\ reminders (appState EditDuringTick.saved) = [Sample.rent]
   /\ fired 0 Sample.t0911 (reminders (appState EditDuringTick.saved)) = [Sample.rent])
  /\ (reminderToEdit EditDuringSnooze.snoozed = Some Sample.paidRent
      /\ persisted EditDuringSnooze.snoozed = Some Sample.snoozedRent
      /\ dueDate Sample.snoozedRent = form_dueDate Sample.unchanged
      /\ dueTime Sample.snoozedRent = form_dueTime Sample.unchanged
      /\ reminders (appState EditDuringSnooze.saved) = [Sample.paidRent]
      /\ forall t, fired 0 t (reminders (appState EditDuringSnooze.saved)) = []).
Proof.
  split; repeat split; try (vm_compute; reflexivity).
  intros t. change (reminders (appState EditDuringSnooze.saved)) with [Sample.paidRent].
  rewrite fired_filter. cbn [filter]. unfold newlyDue.
  cbn [notified Sample.paidRent negb]. now rewrite andb_false_r.
Qed.

Example snoozed_until_window_elapses :
  let snoozed :=
    reminders (handleSnoozeReminder Sample.t0900 (id Sample.paidRent)
                 {| reminders := [Sample.paidRent];
                    activeNotifications := [Sample.paidRent] |}) in
  fired 0 Sample.t0905 snoozed = []
  /\ List.length (fired 0 Sample.t0911 snoozed) = 1%nat.
Proof. split; vm_compute; reflexivity. Qed.

(* ===================================================================== *)
(** * Accounts *)
(* ===================================================================== *)

Section AuthFacts.
Variable inherited : string -> bool.

Lemma own_setProp_same (us : list (string * string)) (k v : string) :
  own (setProp us k v) k = Some v.
Proof.
  induction us as [| [k' v'] us IH]; cbn [setProp own].
  - now rewrite String.eqb_refl.
  - destruct (String.eqb k' k) eqn:He; cbn [own]; rewrite He; [reflexivity | exact IH].
Qed.

Lemma own_setProp_other (us : list (string * string)) (k v k0 : string) :
  k0 <> k -> own (setProp us k v) k0 = own us k0.
Proof.
  intros Hne. induction us as [| [k' v'] us IH]; cbn [setProp own].
  - now apply String.eqb_neq in Hne as Hne'; rewrite String.eqb_sym, Hne'.
  - destruct (String.eqb k' k) eqn:He; cbn [own].
    + apply String.eqb_eq in He as ->.
      apply not_eq_sym, String.eqb_neq in Hne. now rewrite Hne.
    + now rewrite IH.
Qed.

Lemma login_resolves_iff (u p : string) (st : AuthState) :
  snd (login inherited u p st) = Resolved <->
  own (users st) u = Some p /\ p <> EmptyString.
Proof.
  unfold login, getProp.
  destruct (own (users st) u) as [q |]; cbn [lookup_truthy lookup_differs].
  - destruct (String.eqb_spec q EmptyString) as [-> | Hq]; cbn [negb orb snd].
    + split; [discriminate | intros ([= <-] & Hp); now destruct Hp].
    + destruct (String.eqb_spec q p) as [-> | Hqp]; cbn [negb snd].
      * split; [now intros _ | reflexivity].
      * split; [discriminate | intros ([= ->] & _); now destruct Hqp].
  - destruct (inherited u); cbn [lookup_truthy lookup_differs negb orb snd];
      (split; [discriminate | now intros ([=] & _)]).
Qed.

(** X1.  Registering a new user with a non-empty name and password
    signs that user in, and the same credentials log in again, also after
    logging out. *)
Theorem signup_then_login (u p : string) (st : AuthState) :
  u <> EmptyString -> p <> EmptyString ->
  lookup_truthy (getProp inherited (users st) u) = false ->
  let st' := fst (signup inherited u p st) in
  snd (signup inherited u p st) = Resolved
  /\ user st' = Some u
  /\ login inherited u p st' = (st', Resolved)
  /\ login inherited u p (logout st') = (st', Resolved).
Proof.
  intros Hu Hp Hfree. cbv zeta. unfold signup.
  apply String.eqb_neq in Hu as Hu', Hp as Hp'. rewrite Hu', Hp', Hfree.
  cbn [orb fst snd]. split; [reflexivity |].
  split; [unfold user; cbn [currentUsername]; now rewrite Hu' |].
  assert (Hlogin : forall c,
            login inherited u p
              {| users := setProp (users st) u p; currentUsername := c |}
            = ({| users := setProp (users st) u p; currentUsername := Some u |},
               Resolved)).
  { intros c. unfold login, getProp. cbn [users].
    rewrite own_setProp_same. cbn [lookup_truthy lookup_differs].
    now rewrite Hp', String.eqb_refl. }
  split; [apply Hlogin | apply (Hlogin None)].
Qed.

(** X2.  A registration attempt, accepted or not, never replaces a
    non-empty stored password and never changes whether any other
    user's credentials log in. *)
Theorem signup_keeps_credentials (u p : string) (st : AuthState) :
  (forall q, own (users st) u = Some q -> q <> EmptyString ->
     own (users (fst (signup inherited u p st))) u = Some q)
  /\ (forall u' p', u' <> u ->
        snd (login inherited u' p' (fst (signup inherited u p st)))
        = snd (login inherited u' p' st)).
Proof.
  unfold signup. split.
  - intros q Hq Hne.
    destruct (String.eqb u EmptyString || String.eqb p EmptyString); [exact Hq |].
    unfold getProp. rewrite Hq. cbn [lookup_truthy].
    apply String.eqb_neq in Hne. now rewrite Hne.
  - intros u' p' Hne.
    destruct (String.eqb u EmptyString || String.eqb p EmptyString); [reflexivity |].
    destruct (lookup_truthy (getProp inherited (users st) u)); [reflexivity |].
    cbn [fst]. unfold login, getProp. cbn [users].
    rewrite own_setProp_other by exact Hne.
    now destruct (negb (lookup_truthy _) || lookup_differs _ p').
Qed.

Lemma authStep_keeps_registered (st : AuthState) (op : AuthOp) :
  signedInIsRegistered st -> signedInIsRegistered (authStep inherited st op).
Proof.
  intros Hinv. destruct op as [u p | u p |]; cbn [authStep].
  - unfold signup.
    destruct (String.eqb u EmptyString) eqn:Hu; cbn [orb fst]; [exact Hinv |].
    destruct (String.eqb_spec p EmptyString) as [-> | Hp]; cbn [fst]; [exact Hinv |].
    destruct (lookup_truthy (getProp inherited (users st) u)); cbn [fst]; [exact Hinv |].
    intros u0 [= <-]. exists p. cbn [users]. now rewrite own_setProp_same.
  - pose proof (login_resolves_iff u p st) as Hiff. unfold login in *.
    destruct (negb (lookup_truthy (getProp inherited (users st) u))
              || lookup_differs (getProp inherited (users st) u) p);
      cbn [fst snd] in *; [exact Hinv |].
    intros u0 [= <-]. exists p. now apply Hiff.
  - intros u0 [=].
Qed.

(** X3.  Whatever sequence of registrations, log-ins and log-outs is
    performed, the signed-in user (if any) has a stored, non-empty
    password. *)
Theorem signed_in_user_is_registered (ops : list AuthOp) (st : AuthState) :
  signedInIsRegistered st ->
  signedInIsRegistered (fold_left (authStep inherited) ops st).
Proof.
  revert st. induction ops as [| op ops IH]; intros st Hinv; cbn [fold_left].
  - exact Hinv.
  - apply IH. now apply authStep_keeps_registered.
Qed.

Lemma authStep_keeps_inherited_free (u : string) (st : AuthState) (op : AuthOp) :
  inherited u = true -> own (users st) u = None ->
  own (users (authStep inherited st op)) u = None.
Proof.
  intros Hin Hown. destruct op as [u' p' | u' p' |]; cbn [authStep].
  - unfold signup.
    destruct (String.eqb u' EmptyString || String.eqb p' EmptyString); [exact Hown |].
    destruct (lookup_truthy (getProp inherited (users st) u')) eqn:Ht; [exact Hown |].
    cbn [fst users]. destruct (String.eqb_spec u u') as [<- | Hne].
    + unfold getProp in Ht. rewrite Hown, Hin in Ht. discriminate Ht.
    + now rewrite own_setProp_other.
  - unfold login.
    now destruct (negb (lookup_truthy (getProp inherited (users st) u'))
                  || lookup_differs (getProp inherited (users st) u') p').
  - exact Hown.
Qed.

(** X4.  A name that an empty object inherits (such as [toString]) and
    that is not stored can never be registered, and never logs in,
    whatever operations came before. *)
Theorem inherited_name_is_unusable (u : string) (ops : list AuthOp) (st : AuthState) :
  inherited u = true -> own (users st) u = None ->
  forall p,
    snd (signup inherited u p (fold_left (authStep inherited) ops st)) <> Resolved
    /\ snd (login inherited u p (fold_left (authStep inherited) ops st))
       = Rejected "Invalid username or password.".
Proof.
  intros Hin Hown p.
  assert (Hfree : own (users (fold_left (authStep inherited) ops st)) u = None).
  { revert st Hown. induction ops as [| op ops IH]; intros st Hown; cbn [fold_left].
    - exact Hown.
    - apply IH. now apply authStep_keeps_inherited_free. }
  set (st' := fold_left (authStep inherited) ops st) in *.
  unfold signup, login, getProp. rewrite Hfree, Hin.
  cbn [lookup_truthy lookup_differs negb orb snd].
  split; [| reflexivity].
  now destruct (String.eqb u EmptyString || String.eqb p EmptyString).
Qed.

End AuthFacts.

(* ===================================================================== *)
(** * The transaction list *)
(* ===================================================================== *)

Lemma Z_toString_inj (a b : Z) : Z_toString a = Z_toString b -> a = b.
Proof.
  unfold Z_toString. intros Heq.
  assert (Hnn : forall z, Z.to_int z <> Decimal.Pos Decimal.Nil
                          /\ Z.to_int z <> Decimal.Neg Decimal.Nil).
  { intros [| q | q]; cbn [Z.to_int]; split; try discriminate;
      intros [= Hq]; now apply (Unsigned.to_uint_nonnil q). }
  apply DecimalZ.to_int_inj.
  assert (Hsome : Some (Z.to_int a) = Some (Z.to_int b)).
  { rewrite <- (NilZero.isi (Z.to_int a)), <- (NilZero.isi (Z.to_int b));
      try apply Hnn. now rewrite Heq. }
  now injection Hsome.
Qed.

Section TransactionFacts.
Context {number : Type} `{JSNumber number}.
Local Abbreviation Transaction := (Tx.Transaction number).

Lemma existsb_sameTxId (t : Transaction) (l : list Transaction) :
  existsb (fun x => String.eqb (Tx.id x) (Tx.id t)) l = true <->
  In (Tx.id t) (map Tx.id l).
Proof.
  rewrite existsb_exists, in_map_iff. split.
  - intros (x & Hx & He). apply String.eqb_eq in He. now exists x.
  - intros (x & He & Hx). exists x. split; [exact Hx | now apply String.eqb_eq].
Qed.

Lemma save_present (t : Transaction) (l : list Transaction) :
  In (Tx.id t) (map Tx.id l) ->
  handleSaveTransaction t l
  = map (fun x => if String.eqb (Tx.id x) (Tx.id t) then t else x) l.
Proof.
  intros Hin. unfold handleSaveTransaction.
  now apply existsb_sameTxId in Hin as ->.
Qed.

Lemma save_absent (t : Transaction) (l : list Transaction) :
  ~ In (Tx.id t) (map Tx.id l) -> handleSaveTransaction t l = (l ++ [t])%list.
Proof.
  intros Hin. unfold handleSaveTransaction.
  destruct (existsb _ l) eqn:He; [| reflexivity].
  now apply existsb_sameTxId in He.
Qed.

Lemma In_dec_id (t : Transaction) (l : list Transaction) :
  In (Tx.id t) (map Tx.id l) \/ ~ In (Tx.id t) (map Tx.id l).
Proof. destruct (in_dec string_dec (Tx.id t) (map Tx.id l)); auto. Qed.

Lemma delete_after_save (t : Transaction) (l : list Transaction) :
  handleDeleteTransaction (Tx.id t) (handleSaveTransaction t l)
  = handleDeleteTransaction (Tx.id t) l.
Proof.
  unfold handleDeleteTransaction. destruct (In_dec_id t l) as [Hin | Hnin].
  - rewrite (save_present t l Hin). clear Hin.
    induction l as [| y l IH]; [reflexivity |]. cbn [map filter].
    destruct (String.eqb (Tx.id y) (Tx.id t)) eqn:He.
    + rewrite String.eqb_refl. cbn [negb]. exact IH.
    + rewrite He. cbn [negb]. now rewrite IH.
  - rewrite (save_absent t l Hnin), filter_app. cbn [filter].
    rewrite String.eqb_refl. cbn [negb]. apply app_nil_r.
Qed.

(** X5.  Saving a transaction replaces, in place, every entry that has
    its id, or appends it when no entry has: afterwards the saved
    transaction is in the list, every entry with its id is the saved one,
    the entries with other ids are the same as before in the same order
    (what deleting the id leaves is unchanged),
    and the length grows by one exactly when the id was new. *)
Theorem save_transaction_replaces_or_appends (t : Transaction) (l : list Transaction) :
  In t (handleSaveTransaction t l)
  /\ (forall x, In x (handleSaveTransaction t l) -> Tx.id x = Tx.id t -> x = t)
  /\ handleDeleteTransaction (Tx.id t) (handleSaveTransaction t l)
     = handleDeleteTransaction (Tx.id t) l
  /\ (In (Tx.id t) (map Tx.id l) ->
        map Tx.id (handleSaveTransaction t l) = map Tx.id l)
  /\ (~ In (Tx.id t) (map Tx.id l) ->
        handleSaveTransaction t l = (l ++ [t])%list).
Proof.
  destruct (In_dec_id t l) as [Hin | Hnin].
  - rewrite (save_present t l Hin).
    split; [| split; [| split; [| split]]].
    + apply in_map_iff in Hin as (x & He & Hx). apply in_map_iff.
      exists x. split; [| exact Hx]. apply String.eqb_eq in He. now rewrite He.
    + intros x Hx He. apply in_map_iff in Hx as (y & Hy & _).
      destruct (String.eqb_spec (Tx.id y) (Tx.id t)); congruence.
    + rewrite <- (save_present t l Hin). apply delete_after_save.
    + intros _. rewrite map_map. apply map_ext. intros y.
      destruct (String.eqb_spec (Tx.id y) (Tx.id t)); congruence.
    + intros Hn. now destruct Hn.
  - rewrite (save_absent t l Hnin).
    split; [| split; [| split; [| split]]].
    + apply in_app_iff. right. now left.
    + intros x Hx He. apply in_app_iff in Hx as [Hx | [<- | []]]; [| reflexivity].
      destruct Hnin. rewrite <- He. now apply in_map.
    + rewrite <- (save_absent t l Hnin). apply delete_after_save.
    + intros Hin. now destruct Hnin.
    + reflexivity.
Qed.

Lemma save_then_save (t1 t2 : Transaction) (l : list Transaction) :
  Tx.id t1 = Tx.id t2 ->
  handleSaveTransaction t2 (handleSaveTransaction t1 l) = handleSaveTransaction t2 l.
Proof.
  intros He. destruct (In_dec_id t1 l) as [Hin | Hnin].
  - assert (Hin2 : In (Tx.id t2) (map Tx.id l)) by now rewrite <- He.
    rewrite (save_present t1 l Hin), (save_present t2 l Hin2).
    rewrite save_present.
    + rewrite map_map. apply map_ext. intros x. rewrite He.
      destruct (String.eqb (Tx.id x) (Tx.id t2)) eqn:Hx; [| now rewrite Hx].
      now rewrite He, String.eqb_refl.
    + rewrite map_map. apply in_map_iff in Hin2 as (x & Hx & Hxl).
      apply in_map_iff. exists x. split; [| exact Hxl].
      destruct (String.eqb_spec (Tx.id x) (Tx.id t1)); congruence.
  - assert (Hnin2 : ~ In (Tx.id t2) (map Tx.id l)) by now rewrite <- He.
    rewrite (save_absent t1 l Hnin), (save_absent t2 l Hnin2).
    rewrite save_present by (rewrite map_app, in_app_iff; right; left; exact He).
    rewrite map_app. cbn [map]. rewrite He, String.eqb_refl. f_equal.
    rewrite <- (map_id l) at 2. apply map_ext_in. intros x Hx.
    destruct (String.eqb_spec (Tx.id x) (Tx.id t2)) as [Hx2 | _]; [| reflexivity].
    destruct Hnin2. rewrite <- Hx2. now apply in_map.
Qed.

(** X6.  Of two saves with the same id the later one wins, so saving
    twice is the same as saving once; and deleting by id undoes the save
    of a transaction whose id was new. *)
Theorem save_save_delete_transaction (t1 t2 : Transaction) (l : list Transaction) :
  (Tx.id t1 = Tx.id t2 ->
     handleSaveTransaction t2 (handleSaveTransaction t1 l) = handleSaveTransaction t2 l)
  /\ handleSaveTransaction t1 (handleSaveTransaction t1 l) = handleSaveTransaction t1 l
  /\ (~ In (Tx.id t1) (map Tx.id l) ->
        handleDeleteTransaction (Tx.id t1) (handleSaveTransaction t1 l) = l).
Proof.
  split; [apply save_then_save |]. split; [now apply save_then_save |].
  intros Hnin. rewrite delete_after_save. unfold handleDeleteTransaction.
  apply forallb_filter_id. apply forallb_forall. intros x Hx.
  apply negb_true_iff, String.eqb_neq. intros He. apply Hnin.
  rewrite <- He. now apply in_map.
Qed.

(** X7.  New transactions take the clock reading as their id: two
    submitted at different readings, neither already used as an id, are
    both appended; two submitted at the same reading leave only the
    second. *)
Theorem new_transactions_by_clock (now1 now2 : Z) (f1 f2 : TransactionForm)
  (l : list Transaction) :
  let t1 := TransactionModal_handleSubmit now1 None f1 in
  let t2 := TransactionModal_handleSubmit now2 None f2 in
  ~ In (Z_toString now1) (map Tx.id l) -> ~ In (Z_toString now2) (map Tx.id l) ->
  (now1 <> now2 ->
     handleSaveTransaction t2 (handleSaveTransaction t1 l) = (l ++ [t1; t2])%list)
  /\ (now1 = now2 ->
     handleSaveTransaction t2 (handleSaveTransaction t1 l) = (l ++ [t2])%list).
Proof.
  cbv zeta. intros Hn1 Hn2.
  set (t1 := TransactionModal_handleSubmit now1 None f1).
  set (t2 := TransactionModal_handleSubmit now2 None f2).
  split.
  - intros Hne. rewrite (save_absent t1 l Hn1). rewrite save_absent.
    + now rewrite <- app_assoc.
    + rewrite map_app, in_app_iff. cbn [map In Tx.id t1 t2 TransactionModal_handleSubmit].
      intros [Hin | [Heq | []]]; [now apply Hn2 |].
      apply Z_toString_inj in Heq. now apply Hne.
  - intros Heq. rewrite save_then_save by (cbn; now rewrite Heq).
    now apply save_absent.
Qed.

End TransactionFacts.

(* ===================================================================== *)
(** * More facts about dates *)
(* ===================================================================== *)

Module JSHostFacts.
Import JSDate JSDateFacts JSHost.

Lemma LocalTime_UTC (tz x : Z) : LocalTime tz (UTC tz x) = x.
Proof. unfold LocalTime, UTC. lia. Qed.

Lemma Day_MakeDate (d w : Z) :
  0 <= w < msPerDay -> Day (MakeDate d w) = d /\ TimeWithinDay (MakeDate d w) = w.
Proof. unfold Day, TimeWithinDay, MakeDate, msPerDay. intros Hw. split; divmod. Qed.

Lemma civil_fields_range (t : Z) :
  1 <= snd (fst (civil_from_days (Day t))) <= 12
  /\ 1 <= snd (civil_from_days (Day t)) <= 31.
Proof.
  pose proof (days_from_civil_from_days (Day t)) as Hc.
  destruct (civil_from_days (Day t)) as [[y m] d]. cbn [fst snd]. tauto.
Qed.

Lemma getMonth_range (tz t : Z) : 0 <= getMonth tz t <= 11.
Proof.
  unfold getMonth, MonthFromTime.
  pose proof (civil_fields_range (LocalTime tz t)). lia.
Qed.

(** The local fields of [new Date(y, monthIndex, 1)]. *)
Lemma fields_of_newDate (tz y mi : Z) :
  ~ 0 <= y <= 99 ->
  getFullYear tz (newDate tz y mi 1) = y + mi / 12
  /\ getMonth tz (newDate tz y mi 1) = mi mod 12
  /\ getDate tz (newDate tz y mi 1) = 1
  /\ TimeWithinDay (LocalTime tz (newDate tz y mi 1)) = 0.
Proof.
  intros Hy. unfold newDate, ofLocalFields, MakeFullYear.
  replace ((0 <=? y) && (y <=? 99)) with false
    by (symmetry; apply andb_false_iff;
        destruct (Z.leb_spec 0 y); [right; apply Z.leb_gt; lia | now left]).
  unfold getFullYear, getMonth, getDate, YearFromTime, MonthFromTime, DateFromTime.
  rewrite LocalTime_UTC. change (MakeTime 0 0 0 0) with 0.
  destruct (Day_MakeDate (days_from_civil (y + mi / 12) (mi mod 12 + 1) 1) 0)
    as (-> & ->); [unfold msPerDay; lia |].
  pose proof (Z.mod_pos_bound mi 12 ltac:(lia)) as Hm.
  pose proof (DaysInMonth_bound (y + mi / 12) (mi mod 12 + 1)) as Hb.
  rewrite civil_from_days_from_civil by lia.
  cbn [fst snd]. repeat split; lia.
Qed.

Lemma list_ascii_of_string_app (a b : string) :
  list_ascii_of_string (a ++ b)
  = (list_ascii_of_string a ++ list_ascii_of_string b)%list.
Proof. induction a as [| c a IH]; cbn; [reflexivity | now rewrite IH]. Qed.

Lemma digit_char_not_T (n : Z) : Ascii.eqb (digit_char n) "T" = false.
Proof.
  unfold digit_char.
  pose proof (Z.mod_pos_bound n 10 ltac:(lia)) as Hb.
  generalize dependent (n mod 10). intros k Hk.
  assert (Hc : k = 0 \/ k = 1 \/ k = 2 \/ k = 3 \/ k = 4 \/ k = 5 \/ k = 6
               \/ k = 7 \/ k = 8 \/ k = 9) by lia.
  repeat (destruct Hc as [-> | Hc]; [reflexivity |]).
  subst k. reflexivity.
Qed.

Lemma beforeT_isoDate (y m d : Z) (rest : list ascii) :
  beforeT (string_of_list_ascii
             ((pad4 y ++ ["-"%char] ++ pad2 m ++ ["-"%char] ++ pad2 d)
              ++ "T"%char :: rest))
  = isoDate y m d.
Proof.
  unfold isoDate, pad4, pad2.
  cbn [app string_of_list_ascii beforeT].
  rewrite !digit_char_not_T. reflexivity.
Qed.

(** The date part of [toISOString] is the UTC calendar date. *)
Lemma beforeT_toISOString (t : Z) :
  0 <= YearFromTime t <= 9999 ->
  beforeT (toISOString t)
  = isoDate (YearFromTime t) (MonthFromTime t + 1) (DateFromTime t).
Proof.
  unfold YearFromTime, MonthFromTime, DateFromTime, toISOString. intros Hy.
  destruct (civil_from_days (Day t)) as [[y m] d]. cbn [fst snd] in *.
  settle_comparisons. cbn [andb].
  replace (m - 1 + 1) with m by lia.
  set (w := TimeWithinDay t).
  rewrite <- (beforeT_isoDate y m d
                (pad2 (w / msPerHour) ++ [":"%char]
                 ++ pad2 (w mod msPerHour / msPerMinute) ++ [":"%char]
                 ++ pad2 (w mod msPerMinute / msPerSecond) ++ ["."%char]
                 ++ pad3 (w mod msPerSecond) ++ ["Z"%char])).
  reflexivity.
Qed.

Lemma parse_date_and_time (tz y m d h mi : Z) :
  0 <= y <= 9999 -> 1 <= m <= 12 -> 1 <= d <= 31 ->
  0 <= h <= 23 -> 0 <= mi <= 59 ->
  parse tz (isoDate y m d ++ "T"
            ++ string_of_list_ascii (pad2 h ++ [":"%char] ++ pad2 mi))
  = Some (UTC tz (MakeDate (days_from_civil y m d) (MakeTime h mi 0 0))).
Proof.
  intros Hy Hm Hd Hh Hmi. unfold parse, isoDate.
  rewrite !list_ascii_of_string_app, !list_ascii_of_string_of_list_ascii.
  change (list_ascii_of_string "T") with ["T"%char].
  rewrite <- !app_assoc.
  rewrite (read_date_fmt y m d) by lia.
  change (expect "T" (["T"%char] ++ ?r)%list) with (Some r).
  cbv iota beta.
  now rewrite read_time_hhmm by lia.
Qed.

(** Moving the day of the month back by [i] moves the instant back by
    [i] days. *)
Lemma setDate_back (tz t i : Z) :
  setDate tz t (getDate tz t - i) = t - i * msPerDay.
Proof.
  unfold setDate, getDate, YearFromTime, MonthFromTime, DateFromTime.
  set (l := LocalTime tz t).
  pose proof (days_from_civil_from_days (Day l)) as Hc.
  destruct (civil_from_days (Day l)) as [[y m] d]. cbn [fst snd].
  destruct Hc as (Hday & _ & _).
  replace (m - 1 + 1) with m by lia.
  replace (days_from_civil y m (d - i)) with (Day l - i)
    by (rewrite <- Hday; unfold days_from_civil; lia).
  subst l. unfold UTC, MakeDate, LocalTime, Day, TimeWithinDay, msPerDay, msPerMinute.
  divmod.
Qed.

End JSHostFacts.

(* ===================================================================== *)
(** * The month navigator *)
(* ===================================================================== *)

Section NavigatorFacts.
Import JSDate JSHost JSDateFacts JSHostFacts.

(** X8.  Away from two-digit years, [changeMonth] moves the view by
    exactly [amount] months and lands on local midnight of the first of
    that month. *)
Theorem changeMonth_moves_by_months (tz viewDate amount : Z) :
  ~ 0 <= getFullYear tz viewDate <= 99 ->
  monthOrdinal tz (changeMonth tz viewDate amount) = monthOrdinal tz viewDate + amount
  /\ getDate tz (changeMonth tz viewDate amount) = 1
  /\ TimeWithinDay (LocalTime tz (changeMonth tz viewDate amount)) = 0.
Proof.
  intros Hy. unfold changeMonth, monthOrdinal.
  destruct (fields_of_newDate tz (getFullYear tz viewDate)
              (getMonth tz viewDate + amount) Hy) as (-> & -> & -> & ->).
  repeat split. divmod.
Qed.

(** X9.  From year 100 on, going to the next month and back returns
    to the first of the month that was viewed. *)
Theorem next_then_previous_month (tz viewDate : Z) :
  100 <= getFullYear tz viewDate ->
  changeMonth tz (changeMonth tz viewDate 1) (-1) = changeMonth tz viewDate 0.
Proof.
  intros Hy. pose proof (getMonth_range tz viewDate) as Hm.
  unfold changeMonth at 1 3.
  destruct (fields_of_newDate tz (getFullYear tz viewDate) (getMonth tz viewDate + 1)
              ltac:(lia)) as (Hy1 & Hm1 & _).
  fold (changeMonth tz viewDate 1) in Hy1, Hm1. rewrite Hy1, Hm1.
  unfold newDate, ofLocalFields, MakeFullYear.
  assert (Hq : (getMonth tz viewDate + 1) / 12 = 0 /\ getMonth tz viewDate <= 10
               \/ (getMonth tz viewDate + 1) / 12 = 1 /\ getMonth tz viewDate = 11)
    by divmod.
  settle_comparisons. cbn [andb].
  f_equal. f_equal. f_equal; divmod.
Qed.

Lemma isCurrentMonth_ordinal (tz today v : Z) :
  isCurrentMonth tz today v = true <-> monthOrdinal tz today = monthOrdinal tz v.
Proof.
  unfold isCurrentMonth, monthOrdinal.
  pose proof (getMonth_range tz today). pose proof (getMonth_range tz v).
  rewrite andb_true_iff, !Z.eqb_eq. lia.
Qed.

Lemma year_of_ordinal (tz t : Z) :
  1200 <= monthOrdinal tz t -> 100 <= getFullYear tz t.
Proof. unfold monthOrdinal. pose proof (getMonth_range tz t). lia. Qed.

Lemma last_cons_clicks (today : Z) (op : NavOp) (clicks : list (Z * NavOp)) (c : Z) :
  last (map fst ((today, op) :: clicks)) c = last (map fst clicks) today.
Proof.
  cbn [map fst]. generalize (map fst clicks). intros l.
  assert (Hdef : forall (l : list Z) (a c d : Z), last (a :: l) c = last (a :: l) d).
  { induction l0 as [| b l0 IH]; intros a c0 d; [reflexivity |].
    change (last (b :: l0) c0 = last (b :: l0) d). apply IH. }
  destruct l as [| a l]; [reflexivity |].
  change (last (a :: l) c = last (a :: l) today). apply Hdef.
Qed.

Lemma navigate_invariant (tz : Z) (clicks : list (Z * NavOp)) :
  forall (st : NavState) (cset cnow : Z),
    isCurrentMonthMemo st = isCurrentMonth tz cset (viewDate st) ->
    monthOrdinal tz (viewDate st) <= monthOrdinal tz cset ->
    monthOrdinal tz cset <= monthOrdinal tz cnow ->
    1200 + Z.of_nat (List.length clicks) <= monthOrdinal tz (viewDate st) ->
    clockAdvances tz cnow clicks ->
    monthOrdinal tz (viewDate (fold_left (navigate tz) clicks st))
    <= monthOrdinal tz (last (map fst clicks) cnow).
Proof.
  induction clicks as [| [today op] clicks IH];
    intros st cset cnow Hmemo Hle Hset Hlow Hadv.
  - cbn. lia.
  - cbn [fold_left]. destruct Hadv as (Hc & Hadv).
    cbn [List.length] in Hlow. rewrite last_cons_clicks.
    assert (Hyear : ~ 0 <= getFullYear tz (viewDate st) <= 99)
      by (pose proof (year_of_ordinal tz (viewDate st)); lia).
    assert (Hmove : forall a, -1 <= a -> monthOrdinal tz (viewDate st) + a
                                          <= monthOrdinal tz today ->
              monthOrdinal tz
                (viewDate (fold_left (navigate tz) clicks
                             (setViewDate tz today (changeMonth tz (viewDate st) a))))
              <= monthOrdinal tz (last (map fst clicks) today)).
    { intros a Ha Hroom.
      assert (Hord : monthOrdinal tz (changeMonth tz (viewDate st) a)
                     = monthOrdinal tz (viewDate st) + a).
      { unfold changeMonth, monthOrdinal.
        destruct (fields_of_newDate tz (getFullYear tz (viewDate st))
                    (getMonth tz (viewDate st) + a) Hyear) as (-> & -> & _).
        divmod. }
      apply (IH _ today today); cbn [setViewDate viewDate isCurrentMonthMemo];
        [reflexivity | lia | lia | lia | exact Hadv]. }
    assert (Hstay : monthOrdinal tz (viewDate (fold_left (navigate tz) clicks st))
                    <= monthOrdinal tz (last (map fst clicks) today))
      by (apply (IH st cset today); [exact Hmemo | lia | lia | lia | exact Hadv]).
    destruct op; cbn [navigate].
    + apply Hmove; lia.
    + destruct (isCurrentMonthMemo st) eqn:Hcur; [exact Hstay |].
      apply Hmove; [lia |].
      assert (Hne : monthOrdinal tz cset <> monthOrdinal tz (viewDate st)).
      { intros He. apply isCurrentMonth_ordinal in He. congruence. }
      lia.
    + destruct (isCurrentMonthMemo st) eqn:Hcur; [exact Hstay |].
      apply (IH _ today today); cbn [setViewDate viewDate isCurrentMonthMemo];
        [reflexivity | lia | lia | lia | exact Hadv].
Qed.

(** X10.  Once the viewed month is not after the clock's month, and
    while the clock never returns to an earlier month, no sequence of
    clicks in the navigator shows a month after the clock's month (years
    from 100 on). *)
Theorem navigator_never_passes_current_month (tz c0 v0 : Z)
  (clicks : list (Z * NavOp)) :
  monthOrdinal tz v0 <= monthOrdinal tz c0 ->
  1200 + Z.of_nat (List.length clicks) <= monthOrdinal tz v0 ->
  clockAdvances tz c0 clicks ->
  monthOrdinal tz (viewDate (fold_left (navigate tz) clicks (setViewDate tz c0 v0)))
  <= monthOrdinal tz (last (map fst clicks) c0).
Proof.
  intros Hle Hlow Hadv.
  apply (navigate_invariant tz clicks (setViewDate tz c0 v0) c0 c0);
    cbn [setViewDate viewDate isCurrentMonthMemo]; try reflexivity; try lia.
  exact Hadv.
Qed.

End NavigatorFacts.

(* ===================================================================== *)
(** * The forms *)
(* ===================================================================== *)

Section FormFacts.
Context {number : Type} `{JSNumber number}.
Local Abbreviation Transaction := (Tx.Transaction number).
Local Abbreviation Reminder := (Reminder number).
Import JSDate JSHost JSDateFacts JSHostFacts.

(** X11.  Opening a transaction for editing shows the date it was saved
    with, for every valid date of the years 0 to 9999 and in every time
    zone; a new transaction is offered the UTC calendar date of the
    clock. *)
Theorem transaction_form_date (tz now y m d : Z) (e : Transaction) :
  0 <= y <= 9999 -> 1 <= m <= 12 -> 1 <= d <= DaysInMonth y m ->
  Tx.date e = isoDate y m d ->
  TransactionModal_initialDate tz now (Some e) = Some (Tx.date e)
  /\ (0 <= YearFromTime now <= 9999 ->
      TransactionModal_initialDate tz now (@None Transaction)
      = Some (isoDate (YearFromTime now) (MonthFromTime now + 1) (DateFromTime now))).
Proof.
  intros Hy Hm Hd He. pose proof (DaysInMonth_bound y m) as Hb. split.
  - unfold TransactionModal_initialDate. rewrite He, parse_isoDate by lia.
    cbn [option_map]. f_equal.
    destruct (Day_MakeDate (days_from_civil y m d) 0) as (Hday & _);
      [unfold msPerDay; lia |].
    rewrite beforeT_toISOString;
      unfold YearFromTime, MonthFromTime, DateFromTime;
      rewrite Hday, civil_from_days_from_civil by lia; cbn [fst snd]; [| lia].
    now replace (m - 1 + 1) with m by lia.
  - intros Hnow. unfold TransactionModal_initialDate.
    now rewrite beforeT_toISOString.
Qed.

(** X12.  The due moment a new reminder form starts with is the clock
    reading cut to the minute, moved by whole days when the UTC date
    differs from the local date.  When the two dates agree, a reminder
    saved with these defaults is due at once: any evaluation from then
    on fires it. *)
Theorem new_reminder_default_due (tz now : Z) :
  0 <= YearFromTime now <= 9999 ->
  let f := ReminderModal_resetForm tz now in
  parse tz (form_dueDate f ++ "T" ++ form_dueTime f)
  = Some (now - now mod msPerMinute
          + (Day now - Day (LocalTime tz now)) * msPerDay)
  /\ (Day now = Day (LocalTime tz now) ->
      forall (g : ReminderForm) (saved t : Z),
        form_dueDate g = form_dueDate f -> form_dueTime g = form_dueTime f ->
        now <= t ->
        newlyDue tz t (handleSubmit tz saved None g) = true).
Proof.
  intros Hy. cbv zeta.
  assert (Hparse :
    parse tz (form_dueDate (ReminderModal_resetForm tz now) ++ "T"
              ++ form_dueTime (ReminderModal_resetForm tz now))
    = Some (now - now mod msPerMinute
            + (Day now - Day (LocalTime tz now)) * msPerDay)).
  { cbn [ReminderModal_resetForm form_dueDate form_dueTime].
    rewrite beforeT_toISOString by exact Hy. unfold toTimeString_hhmm.
    destruct (civil_fields_range now) as (Hm & Hd).
    unfold YearFromTime in Hy. unfold MonthFromTime, DateFromTime.
    pose proof (days_from_civil_from_days (Day now)) as Hc.
    unfold YearFromTime.
    destruct (civil_from_days (Day now)) as [[y m] d]. cbn [fst snd] in *.
    destruct Hc as (Hday & _ & _).
    replace (m - 1 + 1) with m by lia.
    set (l := LocalTime tz now).
    assert (Hh : 0 <= HourFromTime l <= 23)
      by (unfold HourFromTime; pose proof (Z.mod_pos_bound (l / msPerHour) 24); lia).
    assert (Hmi : 0 <= MinFromTime l <= 59)
      by (unfold MinFromTime; pose proof (Z.mod_pos_bound (l / msPerMinute) 60); lia).
    rewrite parse_date_and_time by lia. f_equal. rewrite Hday.
    subst l. unfold UTC, MakeDate, MakeTime, HourFromTime, MinFromTime, LocalTime, Day,
      msPerDay, msPerHour, msPerMinute, msPerSecond.
    divmod. }
  split; [exact Hparse |].
  intros Hsame g saved t Hgd Hgt Ht.
  unfold newlyDue, isDue, isSnoozed, dueInstant, handleSubmit.
  cbn [dueDate dueTime notified snoozeUntil shouldResetStatus negb andb].
  rewrite Hgd, Hgt, Hparse. cbn [JSDate.le]. rewrite !andb_true_r.
  apply Z.leb_le. rewrite Hsame.
  pose proof (Z.mod_pos_bound now msPerMinute ltac:(unfold msPerMinute; lia)). lia.
Qed.

End FormFacts.

(* ===================================================================== *)
(** * How the reminder operations compose *)
(* ===================================================================== *)

Section Composition.
Context {number : Type} `{JSNumber number}.
Local Abbreviation Reminder := (Reminder number).
Local Abbreviation State := (State number).

(** X13.  After a snooze at [now], the snoozed reminder is fired by an
    evaluation at [t] exactly when [t] has reached both its due instant
    and [now] plus ten minutes, whatever its [notified] flag was before
    the snooze. *)
Theorem snoozed_reminder_fires_after_window (tz now t d : Z) (id0 : string)
  (st : State) (r : Reminder) :
  In r (reminders st) -> id r = id0 -> dueInstant tz r = Some d ->
  0 <= JSDate.YearFromTime (now + 600000) <= 9999 ->
  In (snoozeOne now id0 r) (fired tz t (reminders (handleSnoozeReminder now id0 st)))
  <-> d <= t /\ now + 600000 <= t.
Proof.
  intros Hin Hid Hd Hy.
  rewrite fired_filter, filter_In. cbn [handleSnoozeReminder reminders].
  assert (Hmem : In (snoozeOne now id0 r) (map (snoozeOne now id0) (reminders st)))
    by now apply in_map.
  assert (Hfields : notified (snoozeOne now id0 r) = false
                    /\ dueInstant tz (snoozeOne now id0 r) = Some d
                    /\ snoozeInstant tz (snoozeOne now id0 r) = Some (now + 600000)).
  { unfold snoozeOne. apply String.eqb_eq in Hid as ->.
    unfold dueInstant, snoozeInstant in *. cbn [dueDate dueTime notified snoozeUntil].
    change (10 * 60 * 1000) with 600000.
    now rewrite toISOString_truthy, JSDateFacts.parse_toISOString by exact Hy. }
  destruct Hfields as (Hn & Hdue & Hsn).
  rewrite newlyDue_spec, Hn, Hdue, Hsn.
  split.
  - intros (_ & (d' & [= <-] & Hle) & _ & [[=] | (su & [= <-] & Hsu)]). now split.
  - intros (Hle & Hsu). split; [exact Hmem |]. split; [now exists d |].
    split; [reflexivity |]. right. now exists (now + 600000).
Qed.

(** X14.  What saving the form does to firing.  A new reminder, and an
    edit that moves the due date or time to an instant after the clock,
    are fired by an evaluation at [t] exactly when [t] has reached the
    submitted due instant, whatever the reminder's state was.  An edit
    that keeps the due date and time of an announced reminder is never
    fired. *)
Theorem saved_reminder_firing (tz now t d : Z) (e : Reminder) (f : ReminderForm) :
  JSDate.parse tz (form_dueDate f ++ "T" ++ form_dueTime f) = Some d ->
  newlyDue tz t (handleSubmit tz now None f) = (d <=? t)
  /\ ((dueDate e <> form_dueDate f \/ dueTime e <> form_dueTime f) -> now < d ->
      newlyDue tz t (handleSubmit tz now (Some e) f) = (d <=? t))
  /\ (dueDate e = form_dueDate f -> dueTime e = form_dueTime f -> notified e = true ->
      newlyDue tz t (handleSubmit tz now (Some e) f) = false).
Proof.
  intros Hd. split; [| split].
  - apply (newlyDue_pending tz t d); [reflexivity | reflexivity | exact Hd].
  - intros Hchg Hfut.
    assert (Hreset : shouldResetStatus tz now (Some e) f = true).
    { unfold shouldResetStatus, JSDate.gt, JSDate.lt. rewrite Hd.
      apply andb_true_iff. split; [| now apply Z.ltb_lt].
      apply orb_true_iff. rewrite !negb_true_iff, !String.eqb_neq. exact Hchg. }
    apply (newlyDue_pending tz t d); unfold handleSubmit;
      cbn [notified snoozeUntil]; rewrite ?Hreset; [reflexivity | reflexivity | exact Hd].
  - intros Hsd Hst Hn.
    assert (Hreset : shouldResetStatus tz now (Some e) f = false).
    { unfold shouldResetStatus. rewrite Hsd, Hst, !String.eqb_refl. reflexivity. }
    unfold newlyDue, handleSubmit. cbn [notified]. rewrite Hreset, Hn.
    cbn [negb]. now rewrite andb_false_r.
Qed.

Lemma NoDup_ids_filter (p : Reminder -> bool) (l : list Reminder) :
  NoDup (map id l) -> NoDup (map id (filter p l)).
Proof.
  induction l as [| n l IH]; intros Hnd; cbn [filter map]; [constructor |].
  inversion Hnd as [| ? ? Hnotin Hnd']; subst.
  destruct (p n); cbn [map]; [| now apply IH].
  constructor; [| now apply IH].
  intros Hin. apply Hnotin. apply in_map_iff in Hin as (x & <- & Hx).
  apply filter_In in Hx as [Hx _]. now apply in_map.
Qed.

Lemma route_fold_NoDup (h : Host) (due : list Reminder) :
  forall (st : State) (eff : list Effect),
    NoDup (map id (activeNotifications st)) ->
    NoDup (map id (activeNotifications (fst (fold_left (route h) due (st, eff))))).
Proof.
  induction due as [| r due IH]; intros st eff Hnd; cbn [fold_left]; [exact Hnd |].
  destruct (route h (st, eff) r) as [st1 eff1] eqn:Hroute. apply IH.
  unfold route in Hroute.
  destruct (hidden h); [destruct (permission_granted (permission h)) |];
    injection Hroute as <- _; cbn [activeNotifications]; try exact Hnd.
  now apply NoDup_ids_replaced.
Qed.

(** X15.  No sequence of ticks, saves, deletions, snoozes and
    dismissals puts two toasts with the same id on the screen. *)
Theorem toast_ids_stay_distinct (ops : list Op) (st : State) :
  NoDup (map id (activeNotifications st)) ->
  NoDup (map id (activeNotifications (run st ops))).
Proof.
  unfold run. revert st.
  induction ops as [| op ops IH]; intros st Hnd; cbn [fold_left]; [exact Hnd |].
  apply IH. destruct op as [h now | tz now e f | id0 | now id0 | id0]; cbn [step].
  - unfold checkReminders.
    destruct (evaluate (tz h) now (reminders st)) as [due upd].
    destruct (0 <? Z.of_nat (List.length due)); [| exact Hnd].
    now apply route_fold_NoDup.
  - exact Hnd.
  - exact Hnd.
  - cbn [handleSnoozeReminder activeNotifications]. now apply NoDup_ids_filter.
  - cbn [handleDismissNotification activeNotifications]. now apply NoDup_ids_filter.
Qed.

Lemma route_fold_other_ids (h : Host) (x : string) (due : list Reminder) :
  forall (st : State) (eff : list Effect),
    (forall r, In r due -> id r <> x) ->
    filter (hasId x) (activeNotifications (fst (fold_left (route h) due (st, eff))))
    = filter (hasId x) (activeNotifications st).
Proof.
  induction due as [| r due IH]; intros st eff Hne; cbn [fold_left]; [reflexivity |].
  destruct (route h (st, eff) r) as [st1 eff1] eqn:Hroute.
  rewrite IH by (intros r' Hr'; apply Hne; now right).
  unfold route in Hroute.
  destruct (hidden h); [destruct (permission_granted (permission h)) |];
    injection Hroute as <- _; cbn [activeNotifications]; try reflexivity.
  assert (Hr : id r <> x) by (apply Hne; now left).
  rewrite filter_app. cbn [filter]. unfold hasId at 2.
  apply String.eqb_neq in Hr as Hr'. rewrite Hr', app_nil_r.
  induction (activeNotifications st) as [| n l IHl]; [reflexivity |]. cbn [filter].
  destruct (String.eqb (id n) (id r)) eqn:He; cbn [negb filter].
  - unfold hasId at 2. apply String.eqb_eq in He. rewrite He, Hr'. exact IHl.
  - destruct (hasId x n); [now rewrite IHl | exact IHl].
Qed.

Lemma route_fold_toast (h : Host) (x : string) (due : list Reminder) :
  hidden h = false ->
  forall (st : State) (eff : list Effect),
    (exists r, In r due /\ id r = x) ->
    exists n, In n due
      /\ filter (hasId x) (activeNotifications (fst (fold_left (route h) due (st, eff))))
         = [n].
Proof.
  intros Hv. induction due as [| r due IH]; intros st eff (r0 & Hr0 & Hid).
  - destruct Hr0.
  - cbn [fold_left]. destruct (route h (st, eff) r) as [st1 eff1] eqn:Hroute.
    destruct (existsb (hasId x) due) eqn:Hlater.
    + apply existsb_exists in Hlater as (r1 & Hr1 & He). apply String.eqb_eq in He.
      destruct (IH st1 eff1) as (n & Hn & Hf); [now exists r1 |].
      exists n. split; [now right | exact Hf].
    + assert (Hne : forall r', In r' due -> id r' <> x).
      { intros r' Hr' He.
        assert (Hex : existsb (hasId x) due = true)
          by (apply existsb_exists; exists r'; split;
              [exact Hr' | now apply String.eqb_eq]).
        congruence. }
      destruct Hr0 as [<- | Hr0]; [| now destruct (Hne r0 Hr0)].
      exists r. split; [now left |].
      rewrite (route_fold_other_ids h x due st1 eff1 Hne).
      unfold route in Hroute. rewrite Hv in Hroute. injection Hroute as <- _.
      cbn [activeNotifications]. subst x. apply filter_hasId_replaced.
Qed.

(** X16.  After a tick on a visible page, every reminder the tick fired
    has exactly one toast with its id, and that toast is a reminder fired
    by this tick; the toasts of ids the tick did not fire are as they
    were. *)
Theorem visible_tick_raises_toasts (h : Host) (now : Z) (st : State) :
  hidden h = false ->
  (forall r, In r (fired (tz h) now (reminders st)) ->
     exists n, In n (fired (tz h) now (reminders st))
       /\ filter (hasId (id r)) (activeNotifications (fst (checkReminders h now st)))
          = [n])
  /\ (forall x, (forall r, In r (fired (tz h) now (reminders st)) -> id r <> x) ->
        filter (hasId x) (activeNotifications (fst (checkReminders h now st)))
        = filter (hasId x) (activeNotifications st)).
Proof.
  intros Hv. unfold checkReminders, fired.
  destruct (evaluate (tz h) now (reminders st)) as [due upd]. cbn [fst].
  destruct due as [| r0 due].
  - split; [intros r [] | reflexivity].
  - replace (0 <? Z.of_nat (List.length (r0 :: due))) with true
      by (symmetry; apply Z.ltb_lt; cbn [List.length]; lia).
    split.
    + intros r Hr. apply (route_fold_toast h (id r) (r0 :: due) Hv). now exists r.
    + intros x Hne. now rewrite route_fold_other_ids.
Qed.

End Composition.

(* ===================================================================== *)
(** * The weekly chart *)
(* ===================================================================== *)

Lemma nth_error_update_at {A : Type} (f : A -> A) (l : list A) :
  forall i k : nat,
    nth_error (update_at i f l) k
    = if Nat.eqb i k then option_map f (nth_error l k) else nth_error l k.
Proof.
  induction l as [| a l IH]; intros i k.
  - destruct i, k; cbn; try reflexivity; now destruct (Nat.eqb i k).
  - destruct i as [| i], k as [| k]; cbn [update_at nth_error Nat.eqb option_map];
      try reflexivity.
    apply IH.
Qed.

Lemma length_update_at {A : Type} (f : A -> A) (l : list A) (i : nat) :
  List.length (update_at i f l) = List.length l.
Proof.
  revert i. induction l as [| a l IH]; intros [| i]; cbn [update_at List.length];
    try reflexivity.
  now rewrite IH.
Qed.

Section WeeklyChart.
Context {number : Type} `{JSNumber number}.
Local Abbreviation Transaction := (Tx.Transaction number).
Local Abbreviation DayBucket := (Bucket.DayBucket number).
Import JSDate JSHost JSDateFacts JSHostFacts.

Lemma accumulated_single (tz now : Z) (k : nat) (t : Transaction) (b : DayBucket) :
  accumulated tz now k [t] b
  = if inBucket tz now k t then addToBucket t b else b.
Proof.
  destruct b as [n i e]. unfold accumulated, addToBucket, isIncome, isExpense.
  cbn [filter Bucket.name Bucket.income Bucket.expenses].
  destruct (Tx.type t), (inBucket tz now k t); reflexivity.
Qed.

Lemma countTransaction_nth (tz now : Z) (t : Transaction) (data : list DayBucket)
  (k : nat) :
  (k < 7)%nat ->
  List.length (countTransaction tz now data t) = List.length data
  /\ nth_error (countTransaction tz now data t) k
     = option_map (accumulated tz now k [t]) (nth_error data k).
Proof.
  intros Hk.
  assert (Hout : inBucket tz now k t = false ->
            nth_error data k
            = option_map (accumulated tz now k [t]) (nth_error data k)).
  { intros Hf. destruct (nth_error data k) as [b |]; [| reflexivity].
    cbn [option_map]. now rewrite accumulated_single, Hf. }
  unfold countTransaction. unfold inBucket in Hout.
  destruct (diffDays tz now t) as [dd |] eqn:Hdd; [| split; [reflexivity | now apply Hout]].
  destruct ((0 <=? dd) && (dd <? 7)) eqn:Hrange.
  - apply andb_true_iff in Hrange as (H0 & H7).
    apply Z.leb_le in H0. apply Z.ltb_lt in H7.
    split; [apply length_update_at |].
    rewrite nth_error_update_at.
    destruct (Nat.eqb_spec (Z.to_nat (6 - dd)) k) as [Heq | Hne].
    + destruct (nth_error data k) as [b |]; [| reflexivity].
      cbn [option_map]. rewrite accumulated_single. unfold inBucket. rewrite Hdd.
      now replace (dd =? 6 - Z.of_nat k) with true by (symmetry; apply Z.eqb_eq; lia).
    + apply Hout. apply Z.eqb_neq. lia.
  - split; [reflexivity |]. apply Hout. apply Z.eqb_neq. intros ->.
    apply andb_false_iff in Hrange as [Hr | Hr];
      [apply Z.leb_gt in Hr | apply Z.ltb_ge in Hr]; lia.
Qed.

Lemma accumulated_cons (tz now : Z) (k : nat) (t : Transaction) (ts : list Transaction)
  (b : DayBucket) :
  accumulated tz now k (t :: ts) b = accumulated tz now k ts (accumulated tz now k [t] b).
Proof.
  unfold accumulated. cbn [filter Bucket.name Bucket.income Bucket.expenses].
  destruct (isIncome t && inBucket tz now k t),
           (isExpense t && inBucket tz now k t); reflexivity.
Qed.

Lemma fold_countTransaction_nth (tz now : Z) (ts : list Transaction) :
  forall (data : list DayBucket) (k : nat),
    (k < 7)%nat ->
    List.length (fold_left (countTransaction tz now) ts data) = List.length data
    /\ nth_error (fold_left (countTransaction tz now) ts data) k
       = option_map (accumulated tz now k ts) (nth_error data k).
Proof.
  induction ts as [| t ts IH]; intros data k Hk; cbn [fold_left].
  - split; [reflexivity |]. destruct (nth_error data k) as [[n i e] |]; reflexivity.
  - destruct (countTransaction_nth tz now t data k Hk) as (Hlen & Hnth).
    destruct (IH (countTransaction tz now data t) k Hk) as (Hlen' & Hnth').
    split; [congruence |]. rewrite Hnth', Hnth.
    destruct (nth_error data k) as [b |]; [| reflexivity].
    cbn [option_map]. now rewrite (accumulated_cons tz now k t ts b).
Qed.

Lemma emptyWeek_nth (tz now : Z) (k : nat) :
  (k < 7)%nat ->
  nth_error (emptyWeek tz now) k
  = Some {| Bucket.name := toLocaleWeekday tz (now - (6 - Z.of_nat k) * msPerDay);
            Bucket.income := zero; Bucket.expenses := zero |}.
Proof.
  intros Hk. unfold emptyWeek. cbn [seq map rev app].
  rewrite !setDate_back.
  do 7 (destruct k as [| k]; [reflexivity |]). lia.
Qed.

(** X17.  The weekly chart has seven positions; position [k] is
    labelled with the local weekday [6 - k] days before the clock
    reading, and its income and expenses are the amounts of the income,
    respectively expense, transactions dated [6 - k] whole days before
    the clock reading, added up in list order from zero.  Transactions
    dated later than the clock, seven or more days back, or with an
    unreadable date count nowhere. *)
Theorem weeklyData_buckets (tz now : Z) (ts : list Transaction) :
  List.length (weeklyData tz now ts) = 7%nat
  /\ forall k, (k < 7)%nat ->
       nth_error (weeklyData tz now ts) k
       = Some {| Bucket.name :=
                   toLocaleWeekday tz (now - (6 - Z.of_nat k) * msPerDay);
                 Bucket.income :=
                   fold_left add
                     (map Tx.amount
                        (filter (fun t => isIncome t && inBucket tz now k t) ts))
                     zero;
                 Bucket.expenses :=
                   fold_left add
                     (map Tx.amount
                        (filter (fun t => isExpense t && inBucket tz now k t) ts))
                     zero |}.
Proof.
  unfold weeklyData. split.
  - destruct (fold_countTransaction_nth tz now ts (emptyWeek tz now) 0 ltac:(lia))
      as (-> & _).
    reflexivity.
  - intros k Hk.
    destruct (fold_countTransaction_nth tz now ts (emptyWeek tz now) k Hk) as (_ & ->).
    now rewrite (emptyWeek_nth tz now k Hk).
Qed.

(** X18.  A transaction whose date is a valid date string is placed by
    the difference of UTC day numbers, in every time zone: it is counted
    at position [k] exactly when the UTC day of the clock reading is
    [6 - k] days after the transaction's date. *)
Theorem weekly_position_by_UTC_day (tz now y m d : Z) (k : nat) (t : Transaction) :
  0 <= y <= 9999 -> 1 <= m <= 12 -> 1 <= d <= 31 ->
  Tx.date t = isoDate y m d ->
  inBucket tz now k t = (Day now - days_from_civil y m d =? 6 - Z.of_nat k).
Proof.
  intros Hy Hm Hd He. unfold inBucket, diffDays.
  rewrite He, parse_isoDate by lia. cbn [option_map].
  f_equal. unfold Day, MakeDate, msPerDay. divmod.
Qed.

Lemma filter_filter_and {A : Type} (p q : A -> bool) (l : list A) :
  filter p (filter q l) = filter (fun x => q x && p x) l.
Proof.
  induction l as [| a l IH]; [reflexivity |]. cbn [filter].
  destruct (q a); cbn [filter andb]; [now rewrite IH | exact IH].
Qed.

(** X19.  On the dashboard the weekly chart is fed the transactions of
    the viewed month only: a position adds up the transactions that are
    both dated its number of days back and shown by the month filter, so
    a transaction of the last seven days that lies outside the viewed
    month counts nowhere. *)
Theorem dashboard_week_counts_viewed_month_only (tz viewDate now : Z)
  (ts : list Transaction) (k : nat) :
  (k < 7)%nat ->
  option_map Bucket.income (nth_error (dashboardWeeklyData tz viewDate now ts) k)
  = Some (fold_left add
            (map Tx.amount
               (filter (fun t => sameMonth tz viewDate (Tx.date t)
                                 && (isIncome t && inBucket tz now k t)) ts))
            zero)
  /\ option_map Bucket.expenses (nth_error (dashboardWeeklyData tz viewDate now ts) k)
     = Some (fold_left add
               (map Tx.amount
                  (filter (fun t => sameMonth tz viewDate (Tx.date t)
                                    && (isExpense t && inBucket tz now k t)) ts))
               zero).
Proof.
  intros Hk. unfold dashboardWeeklyData, weeklyData, filteredTransactions.
  destruct (fold_countTransaction_nth tz now
              (filter (fun t => sameMonth tz viewDate (Tx.date t)) ts)
              (emptyWeek tz now) k Hk) as (_ & ->).
  rewrite (emptyWeek_nth tz now k Hk). cbn [option_map accumulated Bucket.income
    Bucket.expenses].
  now rewrite !filter_filter_and.
Qed.

End WeeklyChart.

(* ===================================================================== *)
(** * The added properties at the sample data *)
(* ===================================================================== *)

Lemma ada_signs_up_and_logs_in :
  let st := fst (signup Sample2.objectPrototype "ada" "pw" Sample2.nobody) in
  user st = Some "ada"
  /\ login Sample2.objectPrototype "ada" "pw" (logout st) = (st, Resolved).
Proof.
  destruct (signup_then_login Sample2.objectPrototype "ada" "pw" Sample2.nobody)
    as (_ & Hu & _ & Hl); [discriminate | discriminate | reflexivity |].
  split; [exact Hu | exact Hl].
Defined.

Lemma ada_cannot_be_overwritten :
  let st := fst (signup Sample2.objectPrototype "ada" "pw" Sample2.nobody) in
  own (users (fst (signup Sample2.objectPrototype "ada" "other" st))) "ada" = Some "pw"
  /\ snd (login Sample2.objectPrototype "bob" "pw"
            (fst (signup Sample2.objectPrototype "ada" "other" st)))
     = snd (login Sample2.objectPrototype "bob" "pw" st).
Proof.
  cbv zeta.
  destruct (signup_keeps_credentials Sample2.objectPrototype "ada" "other"
              (fst (signup Sample2.objectPrototype "ada" "pw" Sample2.nobody)))
    as (Hkeep & Hother).
  split.
  - apply Hkeep; [reflexivity | discriminate].
  - apply Hother. discriminate.
Defined.

Lemma session_user_is_registered :
  signedInIsRegistered
    (fold_left (authStep Sample2.objectPrototype)
       [Signup "ada" "pw"; Logout; Login "ada" "pw"; Signup "bob" "pw2"]
       Sample2.nobody).
Proof.
  apply (signed_in_user_is_registered Sample2.objectPrototype).
  intros u Hu. discriminate Hu.
Defined.

Lemma toString_is_no_user :
  snd (signup Sample2.objectPrototype "toString" "pw"
         (fold_left (authStep Sample2.objectPrototype)
            [Signup "toString" "pw"; Login "toString" "pw"] Sample2.nobody))
  <> Resolved
  /\ snd (login Sample2.objectPrototype "toString" "pw"
            (fold_left (authStep Sample2.objectPrototype)
               [Signup "toString" "pw"; Login "toString" "pw"] Sample2.nobody))
     = Rejected "Invalid username or password.".
Proof.
  apply (inherited_name_is_unusable Sample2.objectPrototype "toString"); reflexivity.
Defined.

Lemma save_edited_coffee :
  map Tx.id (handleSaveTransaction Sample2.coffee [Sample.salary; Sample2.coffee])
  = map Tx.id [Sample.salary; Sample2.coffee]
  /\ handleSaveTransaction Sample2.coffee [Sample.salary]
     = [Sample.salary; Sample2.coffee].
Proof.
  split.
  - destruct (save_transaction_replaces_or_appends Sample2.coffee
                [Sample.salary; Sample2.coffee]) as (_ & _ & _ & Hin & _).
    apply Hin. right. now left.
  - destruct (save_transaction_replaces_or_appends Sample2.coffee [Sample.salary])
      as (_ & _ & _ & _ & Hnew).
    apply Hnew. intros [Hin | []]. discriminate Hin.
Defined.

Lemma delete_undoes_new_coffee :
  handleDeleteTransaction (Tx.id Sample2.coffee)
    (handleSaveTransaction Sample2.coffee [Sample.salary]) = [Sample.salary].
Proof.
  destruct (save_save_delete_transaction Sample2.coffee Sample2.coffee [Sample.salary])
    as (_ & _ & Hundo).
  apply Hundo. intros [Hin | []]. discriminate Hin.
Defined.

Lemma two_coffees_by_clock :
  List.length
    (handleSaveTransaction (TransactionModal_handleSubmit 1709200000006 None Sample2.coffeeForm)
       (handleSaveTransaction
          (TransactionModal_handleSubmit 1709200000005 None Sample2.coffeeForm)
          [Sample.salary])) = 3%nat
  /\ List.length
       (handleSaveTransaction
          (TransactionModal_handleSubmit 1709200000005 None Sample2.coffeeForm)
          (handleSaveTransaction
             (TransactionModal_handleSubmit 1709200000005 None Sample2.coffeeForm)
             [Sample.salary])) = 2%nat.
Proof.
  split.
  - destruct (new_transactions_by_clock 1709200000005 1709200000006
                Sample2.coffeeForm Sample2.coffeeForm [Sample.salary]) as (Hdiff & _).
    + intros [Hin | []]. discriminate Hin.
    + intros [Hin | []]. discriminate Hin.
    + rewrite Hdiff; [reflexivity | discriminate].
  - destruct (new_transactions_by_clock 1709200000005 1709200000005
                Sample2.coffeeForm Sample2.coffeeForm [Sample.salary]) as (_ & Hsame).
    + intros [Hin | []]. discriminate Hin.
    + intros [Hin | []]. discriminate Hin.
    + rewrite Hsame; reflexivity.
Defined.

Lemma march_year : JSDate.getFullYear 0 Sample2.march = 2024.
Proof. vm_compute. reflexivity. Qed.

Lemma march_ordinal : monthOrdinal 0 Sample2.march = 24290.
Proof. vm_compute. reflexivity. Qed.

Lemma april_ordinal : monthOrdinal 0 Sample2.april = 24291.
Proof. vm_compute. reflexivity. Qed.

Lemma december_from_march :
  monthOrdinal 0 (changeMonth 0 Sample2.march (-3)) = monthOrdinal 0 Sample2.march + -3
  /\ JSHost.getDate 0 (changeMonth 0 Sample2.march (-3)) = 1.
Proof.
  destruct (changeMonth_moves_by_months 0 Sample2.march (-3)) as (Hord & Hday & _).
  - rewrite march_year. lia.
  - split; [exact Hord | exact Hday].
Defined.

Lemma april_and_back_to_march :
  changeMonth 0 (changeMonth 0 Sample2.march 1) (-1) = changeMonth 0 Sample2.march 0.
Proof.
  apply next_then_previous_month. rewrite march_year. lia.
Defined.

Lemma clicks_stay_within_april :
  monthOrdinal 0
    (viewDate
       (fold_left (navigate 0)
          [(Sample2.march, PreviousMonth); (Sample2.march, NextMonth);
           (Sample2.march, NextMonth); (Sample2.april, NextMonth)]
          (setViewDate 0 Sample2.march Sample2.march)))
  <= monthOrdinal 0 Sample2.april.
Proof.
  apply (navigator_never_passes_current_month 0 Sample2.march Sample2.march
           [(Sample2.march, PreviousMonth); (Sample2.march, NextMonth);
            (Sample2.march, NextMonth); (Sample2.april, NextMonth)]).
  - lia.
  - rewrite march_ordinal. cbn [List.length]. lia.
  - cbn [clockAdvances]. rewrite march_ordinal, april_ordinal. lia.
Defined.

Lemma coffee_form_shows_its_date :
  TransactionModal_initialDate (-300) Sample.t0905 (Some Sample2.coffee)
  = Some "2024-03-01".
Proof.
  destruct (transaction_form_date (-300) Sample.t0905 2024 3 1 Sample2.coffee)
    as (Hedit & _).
  - lia.
  - lia.
  - split; [lia | vm_compute; discriminate].
  - vm_compute. reflexivity.
  - exact Hedit.
Defined.

Lemma default_due_in_UTC :
  JSDate.parse 0
    (form_dueDate (ReminderModal_resetForm 0 (Sample.t0905 + 12345)) ++ "T"
     ++ form_dueTime (ReminderModal_resetForm 0 (Sample.t0905 + 12345)))
  = Some Sample.t0905.
Proof.
  destruct (new_reminder_default_due (number := Z) 0 (Sample.t0905 + 12345)) as (Hp & _).
  - vm_compute. split; discriminate.
  - rewrite Hp. vm_compute. reflexivity.
Defined.

Lemma snoozed_rent_waits_ten_minutes :
  In (snoozeOne Sample.t0905 (id Sample.paidRent) Sample.paidRent)
     (fired 0 (Sample.t0905 + 600000)
        (reminders (handleSnoozeReminder Sample.t0905 (id Sample.paidRent)
                      {| reminders := [Sample.paidRent];
                         activeNotifications := [Sample.paidRent] |}))).
Proof.
  apply (snoozed_reminder_fires_after_window 0 Sample.t0905 (Sample.t0905 + 600000)
           Sample.t0900 (id Sample.paidRent)
           {| reminders := [Sample.paidRent]; activeNotifications := [Sample.paidRent] |}
           Sample.paidRent).
  - now left.
  - reflexivity.
  - vm_compute. reflexivity.
  - vm_compute. split; discriminate.
  - split; [discriminate | apply Z.le_refl].
Defined.

Lemma rescheduled_rent_fires_in_april :
  newlyDue 0 1711962000000
    (handleSubmit 0 Sample.t0905 (Some Sample.paidRent) Sample.rescheduled) = true.
Proof.
  destruct (saved_reminder_firing 0 Sample.t0905 1711962000000 1711962000000
              Sample.paidRent Sample.rescheduled) as (_ & Hres & _).
  - vm_compute. reflexivity.
  - rewrite Hres; [reflexivity | left; discriminate | reflexivity].
Defined.

(** The rent toast is on the screen; the electricity bill fires at 09:11;
    the rent is saved from an editor opened before it fired and fires
    again at 09:16, its new toast taking the place of the old one. *)
Lemma toasts_distinct_after_refire :
  let st := {| reminders := [Sample.paidRent; Sample.power];
               activeNotifications := [Sample.rent] |} in
  let ops := [Tick Sample.foreground Sample.t0911;
              SubmitReminder 0 Sample.t0911 (Some Sample.rent) Sample.unchanged;
              Tick Sample.foreground Sample.t0916] in
  NoDup (map id (activeNotifications (run st ops)))
  /\ activeNotifications (run st ops) = [Sample.power; Sample.rent].
Proof.
  intros st ops. split; [| vm_compute; reflexivity].
  apply toast_ids_stay_distinct.
  constructor; [intros [] | constructor].
Defined.

Lemma rent_toast_after_visible_tick :
  exists n,
    filter (hasId (id Sample.rent))
      (activeNotifications
         (fst (checkReminders Sample.foreground Sample.t0905
                 {| reminders := [Sample.rent; Sample.power];
                    activeNotifications := [] |}))) = [n].
Proof.
  destruct (visible_tick_raises_toasts Sample.foreground Sample.t0905
              {| reminders := [Sample.rent; Sample.power]; activeNotifications := [] |}
              eq_refl) as (Hraised & _).
  destruct (Hraised Sample.rent) as (n & _ & Hn).
  - vm_compute. now left.
  - now exists n.
Defined.

Lemma week_of_march_first :
  nth_error (weeklyData 0 Sample.t0905 [Sample.salary; Sample2.coffee]) 6
  = Some {| Bucket.name := "Fri"; Bucket.income := 0; Bucket.expenses := 4 |}.
Proof.
  destruct (weeklyData_buckets 0 Sample.t0905 [Sample.salary; Sample2.coffee])
    as (_ & Hnth).
  rewrite (Hnth 6%nat ltac:(lia)). vm_compute. reflexivity.
Defined.

Lemma coffee_is_counted_today :
  inBucket 0 Sample.t0905 6 Sample2.coffee = true.
Proof.
  rewrite (weekly_position_by_UTC_day 0 Sample.t0905 2024 3 1 6 Sample2.coffee);
    [vm_compute; reflexivity | lia | lia | lia | vm_compute; reflexivity].
Defined.

Lemma february_view_hides_march_coffee :
  option_map Bucket.expenses
    (nth_error (dashboardWeeklyData 0 (Sample.midFebruary 0) Sample.t0905
                  [Sample.salary; Sample2.coffee]) 6) = Some 0.
Proof.
  destruct (dashboard_week_counts_viewed_month_only 0 (Sample.midFebruary 0)
              Sample.t0905 [Sample.salary; Sample2.coffee] 6 ltac:(lia)) as (_ & He).
  rewrite He. vm_compute. reflexivity.
Defined.

(** The rent toast is on the screen and is snoozed at 09:05; the
    electricity bill fires at 09:11 and the snoozed rent at 09:16: both
    toasts are those of stored reminders. *)
Lemma toasts_within_store_after_snooze :
  let st := {| reminders := [Sample.paidRent; Sample.power];
               activeNotifications := [Sample.rent] |} in
  let ops := [Snooze Sample.t0905 (id Sample.rent);
              Tick Sample.foreground Sample.t0911;
              Tick Sample.foreground Sample.t0916] in
  withinStore (run st ops)
  /\ activeNotifications (run st ops) = [Sample.power; Sample.snoozedRent].
Proof.
  intros st ops. split; [| vm_compute; reflexivity].
  apply run_keeps_toasts_within_store.
  - repeat constructor; intros id0; discriminate.
  - intros n [<- | []]. left. reflexivity.
Defined.

Lemma february_first_by_zone :
  (sameMonth 330 (Sample.midFebruary 330) (JSDate.isoDate 2024 2 1) = true)
  /\ (sameMonth (-300) (Sample.midJanuary (-300)) (JSDate.isoDate 2024 2 1) = true).
Proof.
  destruct (sameMonth_of_isoDate 330 (Sample.midFebruary 330) 2024 2 1)
    as (Heast & _); [lia | lia | split; [lia | vm_compute; discriminate] | lia |].
  destruct (sameMonth_of_isoDate (-300) (Sample.midJanuary (-300)) 2024 2 1)
    as (_ & Hwest); [lia | lia | split; [lia | vm_compute; discriminate] | lia |].
  split.
  - apply Heast; [now left |]. split; vm_compute; reflexivity.
  - apply Hwest; [lia | reflexivity |]. split; vm_compute; reflexivity.
Defined.
